(** * StationNormals: the line parser of py-normals

    A shallow embedding of [src/StationNormals.py] (class [StationNormals]):
    the static helpers [trim_from_end], [month_index], [transform_data] and
    the line loop of [loadfromfile].

    Strings are Python 2 byte strings: a [string] at the interfaces (dict
    keys, lines, tokens) and a [list ascii] inside the text primitives.  The
    three dicts are [gmap]s keyed by [string]; Python lists are Rocq lists;
    integers are [Z]; an exception ends the run and is returned together with
    the object as it was mutated up to that point. *)

From Stdlib Require Import ZArith Ascii String List Lia Bool.
From stdpp Require Import base option list gmap strings.

Local Open Scope string_scope.
Local Open Scope list_scope.

Set Warnings "-register-all".

(** ** Characters and the text primitives of [str] and [re] *)

Module Text.

Definition code (c : ascii) : N := N_of_ascii c.

Definition between (lo hi : N) (c : ascii) : bool :=
  ((lo <=? code c) && (code c <=? hi))%N.

(** [str.isspace] and the class [\s] on byte strings: tab, newline,
    vertical tab, form feed, carriage return and the space. *)
Definition is_space (c : ascii) : bool := between 9 13 c || between 32 32 c.
Definition is_upper (c : ascii) : bool := between 65 90 c.
Definition is_lower (c : ascii) : bool := between 97 122 c.
Definition is_alpha (c : ascii) : bool := is_upper c || is_lower c.
Definition is_digit (c : ascii) : bool := between 48 57 c.
(** the class [\w] *)
Definition is_word (c : ascii) : bool :=
  is_alpha c || is_digit c || between 95 95 c.
Definition is_newline (c : ascii) : bool := between 10 10 c.
Definition is_char (x c : ascii) : bool := Ascii.eqb x c.

Definition chars (s : string) : list ascii := list_ascii_of_string s.
Definition text (l : list ascii) : string := string_of_list_ascii l.

(** [s.strip()] *)
Fixpoint lstrip (l : list ascii) : list ascii :=
  match l with
  | c :: l' => if is_space c then lstrip l' else l
  | [] => []
  end.
Definition strip_chars (l : list ascii) : list ascii :=
  rev (lstrip (rev (lstrip l))).
Definition strip (s : string) : string := text (strip_chars (chars s)).

(** [re.split(r'\s+', s)]: the pieces between the maximal runs of
    white space; a run at either end leaves an empty piece there, and a
    string without white space (the empty one too) is a single piece. *)
Fixpoint split_ws (in_run : bool) (cur : list ascii) (l : list ascii)
  : list (list ascii) :=
  match l with
  | [] => [rev cur]
  | c :: l' =>
      if is_space c
      then if in_run then split_ws true [] l'
           else rev cur :: split_ws true [] l'
      else split_ws false (c :: cur) l'
  end.

Definition re_split_ws (s : string) : list string :=
  map text (split_ws false [] (chars s)).

End Text.

(** ** The fragment of [re] the parser uses

    A backtracking matcher in continuation-passing style: the alternatives
    are tried in the order Python's engine tries them (a starred class takes
    as many characters as it can and gives them back one at a time), and the
    first complete match wins. *)

Module Re.
Import Text.

Inductive regex : Type :=
| Cls (p : ascii -> bool)     (* one character of a class *)
| Star (p : ascii -> bool)    (* class*, greedy *)
| Seq (r1 r2 : regex)
| Group (r : regex)           (* ( r ) *)
| Bol                         (* ^ *)
| Eol                         (* $ *)
| WordB                       (* \b *)
| Eps.

Definition Plus (p : ascii -> bool) : regex := Seq (Cls p) (Star p).
Definition Chr (c : ascii) : regex := Cls (is_char c).
Definition Lit (s : string) : regex :=
  fold_right (fun c r => Seq (Chr c) r) Eps (chars s).

(** A position in the subject: the characters already passed, last one
    first, and the characters still ahead. *)
Definition pos : Type := list ascii * list ascii.

Definition word_at (l : list ascii) : bool :=
  match l with c :: _ => is_word c | [] => false end.

Section Matcher.
Context {R : Type}.

Definition cont : Type := pos -> list string -> option R.

Fixpoint star (p : ascii -> bool) (k : cont) (gs : list string)
    (seen ahead : list ascii) : option R :=
  match ahead with
  | c :: ahead' =>
      if p c
      then match star p k gs (c :: seen) ahead' with
           | Some r => Some r
           | None => k (seen, ahead) gs
           end
      else k (seen, ahead) gs
  | [] => k (seen, ahead) gs
  end.

Fixpoint run (r : regex) (at_ : pos) (gs : list string) (k : cont)
    : option R :=
  match r with
  | Cls p =>
      match at_.2 with
      | c :: ahead' => if p c then k (c :: at_.1, ahead') gs else None
      | [] => None
      end
  | Star p => star p k gs at_.1 at_.2
  | Seq r1 r2 => run r1 at_ gs (fun at' gs' => run r2 at' gs' k)
  | Group r1 =>
      run r1 at_ gs (fun at' gs' =>
        let n := (length at'.1 - length at_.1)%nat in
        k at' (gs' ++ [text (rev (take n at'.1))]))
  | Bol => match at_.1 with [] => k at_ gs | _ => None end
  | Eol =>
      match at_.2 with
      | [] => k at_ gs
      | [c] => if is_newline c then k at_ gs else None
      | _ => None
      end
  | WordB => if xorb (word_at at_.1) (word_at at_.2) then k at_ gs else None
  | Eps => k at_ gs
  end.
End Matcher.

(** [re.match(r, s)]: the match is tried at the start of [s] only; the
    result holds the groups, [m.group(1)] first. *)
Definition re_match (r : regex) (s : string) : option (list string) :=
  run r ([], chars s) [] (fun _ gs => Some gs).

Definition group (m : list string) (i : nat) : string :=
  nth (i - 1) m "".

(** [re.sub(r, '', s)]: every match of [r], found from left to right and
    never overlapping the one before, is deleted.  [skip] counts the
    characters of the current match still to be dropped. *)
Fixpoint sub_empty (r : regex) (skip : nat) (seen ahead : list ascii)
    : list ascii :=
  match ahead with
  | [] => []
  | c :: ahead' =>
      match skip with
      | S n => sub_empty r n (c :: seen) ahead'
      | O =>
          match run r (seen, ahead) [] (fun at' _ => Some at') with
          | Some at' =>
              match (length ahead - length at'.2)%nat with
              | S n => sub_empty r n (c :: seen) ahead'
              | O => c :: sub_empty r O (c :: seen) ahead'
              end
          | None => c :: sub_empty r O (c :: seen) ahead'
          end
      end
  end.

Definition re_sub_empty (r : regex) (s : string) : string :=
  text (sub_empty r O [] (chars s)).

Definition any_char (c : ascii) : bool := negb (is_newline c).  (* . *)
Definition not_colon (c : ascii) : bool := negb (is_char ":" c).
Definition non_space (c : ascii) : bool := negb (is_space c).   (* \S *)

(** The pattern ^([a-zA-Z][^:]* ):([^:]+)$ of the metadata lines. *)
Definition meta_re : regex :=
  Seq Bol (Seq (Group (Seq (Cls is_alpha) (Star not_colon)))
          (Seq (Chr ":") (Seq (Group (Plus not_colon)) Eol))).

(** The pattern ^(.* )\s+Normals\s*$ of the lines that open a normals type. *)
Definition type_re : regex :=
  Seq Bol (Seq (Group (Star any_char))
          (Seq (Plus is_space) (Seq (Lit "Normals") (Seq (Star is_space) Eol)))).

(** The pattern ^([A-Z]\S+ly)\b of the lines that open a frequency. *)
Definition frequency_re : regex :=
  Seq Bol (Seq (Group (Seq (Cls is_upper) (Seq (Plus non_space) (Lit "ly"))))
          WordB).

(** The pattern [A-Z]$ of a completeness flag. *)
Definition flag_re : regex := Seq (Cls is_upper) Eol.

End Re.

(** ** The parser state *)

(** What the parser stores under a variable: a list of integers (monthly) or
    a list of twelve lists of integers (daily). *)
Inductive pyval : Type :=
| PInt (z : Z)
| PList (l : list pyval).

Abbreviation varmap := (gmap string (list pyval)).
Abbreviation freqmap := (gmap string varmap).
Abbreviation tree := (gmap string freqmap).

(** The object's two dicts and the three locals of [loadfromfile]
    ([None] is Python's [None]). *)
Record state : Type := State {
  meta : gmap string string;
  normals : tree;
  type : option string;
  frequency : option string;
  variable : option string
}.

Definition set_meta (m : gmap string string) (st : state) : state :=
  State m (normals st) (type st) (frequency st) (variable st).
Definition set_normals (n : tree) (st : state) : state :=
  State (meta st) n (type st) (frequency st) (variable st).
Definition set_type (t : option string) (st : state) : state :=
  State (meta st) (normals st) t (frequency st) (variable st).
Definition set_frequency (f : option string) (st : state) : state :=
  State (meta st) (normals st) (type st) f (variable st).
Definition set_variable (v : option string) (st : state) : state :=
  State (meta st) (normals st) (type st) (frequency st) v.

Inductive exn : Type :=
| Exception (msg : string)
| KeyError (key : option string)
| ValueError (literal : string)
| IndexError.

(** A statement either falls through with a value or raises; the state at
    the raise is kept, since the dicts are mutated in place. *)
Inductive result (A : Type) : Type :=
| Next (a : A)
| Raise (e : exn) (st : state).
Arguments Next {A} a.
Arguments Raise {A} e st.

#[global] Instance result_bind : MBind result := fun A B k r =>
  match r with
  | Next a => k a
  | Raise e st => Raise e st
  end.

(** ** The static helpers *)

Definition months : list string :=
  ["JAN"; "FEB"; "MAR"; "APR"; "MAY"; "JUN";
   "JUL"; "AUG"; "SEP"; "OCT"; "NOV"; "DEC"].

(** [x in StationNormals.months] *)
Definition is_month (x : string) : bool := bool_decide (x ∈ months).

(** The [while] loop of [trim_from_end]: each turn pops the last element;
    [n] bounds the number of turns, and [length array] turns are enough
    (see [trim_from_end_stops]). *)
Fixpoint trim_loop (n : nat) (array : list string) (value : string)
    : list string :=
  match n with
  | O => array
  | S n' =>
      if bool_decide (0 < length array)%nat
         && bool_decide (last array = Some value)
      then trim_loop n' (removelast array) value
      else array
  end.

Definition trim_from_end (array : list string) (value : string) : list string :=
  trim_loop (length array) array value.

(** The [for] loop of [month_index], [i] running from its start value. *)
Fixpoint month_index_from (i : Z) (ms : list string) (month : string) : Z :=
  match ms with
  | [] => (-1)%Z
  | m :: ms' =>
      if bool_decide (m = month) then i
      else month_index_from (i + 1)%Z ms' month
  end.

Definition month_index (month : string) : Z := month_index_from 0 months month.

(** [int(s)] on a byte string: white space around the literal is dropped,
    then an optional sign and at least one decimal digit must remain. *)
Fixpoint digits (acc : Z) (l : list ascii) : option Z :=
  match l with
  | [] => Some acc
  | c :: l' =>
      if Text.is_digit c
      then digits (10 * acc + (Z.of_N (Text.code c) - 48))%Z l'
      else None
  end.

Definition unsigned (l : list ascii) : option Z :=
  match l with
  | [] => None
  | _ :: _ => digits 0 l
  end.

Definition int_chars (l : list ascii) : option Z :=
  match Text.strip_chars l with
  | c :: ds =>
      if Text.is_char "-" c then Z.opp <$> unsigned ds
      else if Text.is_char "+" c then unsigned ds
      else unsigned (c :: ds)
  | [] => None
  end.

Definition int (s : string) : option Z := int_chars (Text.chars s).

(** [int(re.sub(r'[A-Z]$', '', val))] for one value. *)
Definition strip_flag (val : string) : string :=
  Re.re_sub_empty Re.flag_re val.

Definition transform_value (val : string) : exn + Z :=
  match int (strip_flag val) with
  | Some z => inr z
  | None => inl (ValueError (strip_flag val))
  end.

(** The list comprehension of [transform_data]: the first value that is not
    an integer literal raises. *)
Fixpoint transform_data (type : string) (values : list string)
    : exn + list Z :=
  match values with
  | [] => inr []
  | val :: values' =>
      match transform_value val with
      | inl e => inl e
      | inr z =>
          match transform_data type values' with
          | inl e => inl e
          | inr zs => inr (z :: zs)
          end
      end
  end.

(** ** [loadfromfile] *)

Definition raise_in {A : Type} (st : state) (r : exn + A) : result A :=
  match r with
  | inl e => Raise e st
  | inr a => Next a
  end.

(** [self.normals[type][frequency]], with the dict that holds it. *)
Definition getitem2 (st : state) (t f : string) : result (freqmap * varmap) :=
  match normals st !! t with
  | None => Raise (KeyError (Some t)) st
  | Some fm =>
      match fm !! f with
      | None => Raise (KeyError (Some f)) st
      | Some vm => Next (fm, vm)
      end
  end.

(** [self.normals[type][frequency][variable] = x], once
    [self.normals[type][frequency]] has been fetched. *)
Definition setitem3 (st : state) (t f v : string) (fm : freqmap) (vm : varmap)
    (x : list pyval) : state :=
  set_normals (<[t := <[f := <[v := x]> vm]> fm]> (normals st)) st.

Definition ints (zs : list Z) : list pyval := map PInt zs.

(** The first statement of the block under [if frequency == 'Daily']:
    a row that opens a variable.  The columns left after [pop(0)] go on to
    the next statement.  The twelve slots of the new array are one and the
    same empty list; a slot is only ever replaced by assignment, never
    appended to, so the sharing cannot be observed. *)
Definition daily_variable (st : state) (t f : string) (columns : list string)
    : result (state * list string) :=
  if bool_decide (length columns = 33%nat) && is_month (nth 1 columns "")
  then
    let v := hd "" columns in
    let columns := tl columns in
    let st := set_variable (Some v) st in
    '(fm, vm) ← getitem2 st t f;
    match vm !! v with
    | None => Next (setitem3 st t f v fm vm (replicate 12 (PList [])), columns)
    | Some _ => Next (st, columns)
    end
  else Next (st, columns).

(** The second statement of that block: a row of one month's values.  The
    right-hand side of the assignment is evaluated before its target. *)
Definition daily_month (st : state) (t f : string) (columns : list string)
    : result state :=
  if bool_decide (length columns = 32%nat) && is_month (hd "" columns)
  then
    let month := hd "" columns in
    let columns := tl columns in
    let i := month_index month in
    if ((i <? 0) || (i >=? 12))%Z
    then Raise (Exception ("unknown month: " +:+ month)) st
    else
      vals ← raise_in st (transform_data t (trim_from_end columns "-8888"));
      '(fm, vm) ← getitem2 st t f;
      match variable st with
      | None => Raise (KeyError None) st
      | Some v =>
          match vm !! v with
          | None => Raise (KeyError (Some v)) st
          | Some arr =>
              if bool_decide (Z.to_nat i < length arr)%nat
              then Next (setitem3 st t f v fm vm
                           (<[Z.to_nat i := PList (ints vals)]> arr))
              else Raise IndexError st
          end
      end
  else Next st.

(** The block under [if frequency == 'Daily']. *)
Definition daily (st : state) (t f : string) (line : string) : result state :=
  let columns := Text.re_split_ws line in
  '(st, columns) ← daily_variable st t f columns;
  daily_month st t f columns.

(** The block under [if frequency == 'Monthly']. *)
Definition monthly (st : state) (t f : string) (line : string) : result state :=
  let columns := Text.re_split_ws line in
  if bool_decide (length columns = 13%nat)
  then
    let v := hd "" columns in
    let columns := tl columns in
    let st := set_variable (Some v) st in
    vals ← raise_in st (transform_data t (trim_from_end columns "-8888"));
    '(fm, vm) ← getitem2 st t f;
    Next (setitem3 st t f v fm vm (ints vals))
  else Next st.

(** [if frequency == name: block] *)
Definition when_frequency (name : string)
    (block : state -> string -> string -> string -> result state)
    (t line : string) (st : state) : result state :=
  match frequency st with
  | Some f => if bool_decide (f = name) then block st t f line else Next st
  | None => Next st
  end.

(** The body of the [for] loop, for one stripped line. *)
Definition body (st : state) (line : string) : result state :=
  match Re.re_match Re.meta_re line with
  | Some m =>
      let key := Text.strip (Re.group m 1) in
      let val := Text.strip (Re.group m 2) in
      Next (set_meta (<[key := val]> (meta st)) st)
  | None =>
  match Re.re_match Re.type_re line with
  | Some m =>
      let t := Text.strip (Re.group m 1) in
      let st := set_type (Some t) st in
      match normals st !! t with
      | None => Next (set_normals (<[t := ∅]> (normals st)) st)
      | Some _ => Next st
      end
  | None =>
  match Re.re_match Re.frequency_re line with
  | Some m =>
      let f := Re.group m 1 in
      let st := set_frequency (Some f) st in
      match type st with
      | None =>
          Raise (Exception ("encountered new frequency '" +:+ f
                            +:+ "' not in any normals type")) st
      | Some t =>
          match normals st !! t with
          | None => Raise (KeyError (Some t)) st
          | Some fm =>
              match fm !! f with
              | None => Next (set_normals (<[t := <[f := ∅]> fm]> (normals st)) st)
              | Some _ => Next st
              end
          end
      end
  | None =>
  match type st with
  | None => Next st
  | Some t =>
      st ← when_frequency "Daily" daily t line st;
      when_frequency "Monthly" monthly t line st
  end
  end end end.

(** The [for] loop over the stripped lines of the file. *)
Fixpoint loop (st : state) (f : list string) : result state :=
  match f with
  | [] => Next st
  | x :: f' => st' ← body st (Text.strip x); loop st' f'
  end.

(** [loadfromfile(self, file)], the file given as its lines; the three
    locals start as [None]. *)
Definition loadfromfile (self : state) (f : list string) : result state :=
  loop (State (meta self) (normals self) None None None) f.

(** [StationNormals(file)] *)
Definition new : state := State ∅ ∅ None None None.
Definition StationNormals (f : list string) : result state :=
  loadfromfile new f.

(** ** Vocabulary of the properties *)

(** A line that none of the three header patterns matches: a data row. *)
Definition data_row (line : string) : Prop :=
  Re.re_match Re.meta_re line = None
  /\ Re.re_match Re.type_re line = None
  /\ Re.re_match Re.frequency_re line = None.

(** [n[t][f][v]], when all three keys are present. *)
Definition lookup3 (n : tree) (t f v : string) : option (list pyval) :=
  fm ← n !! t; vm ← fm !! f; vm !! v.

(** The state a run ends in, whether it returns or raises. *)
Definition final (r : result state) : state :=
  match r with
  | Next st => st
  | Raise _ st => st
  end.

(** A token without white space, as [re.split] yields them. *)
Definition spaceless (l : list ascii) : Prop :=
  Forall (fun c => Text.is_space c = false) l.

(** The spec's words for the flag: at most one trailing uppercase letter is
    removed. *)
Definition without_flag (l : list ascii) : list ascii :=
  match last l with
  | Some c => if Text.is_upper c then removelast l else l
  | None => l
  end.

Definition digit_value (c : ascii) : Z := (Z.of_N (Text.code c) - 48)%Z.

(** The value of a run of decimal digits, most significant first. *)
Definition decimal_from (acc : Z) (ds : list ascii) : Z :=
  fold_left (fun a c => 10 * a + digit_value c)%Z ds acc.

(** A base-10 integer literal and its value: an optional sign and at least
    one decimal digit. *)
Inductive numeral : list ascii -> Z -> Prop :=
| numeral_plain (c : ascii) (ds : list ascii) :
    Forall (fun d => Text.is_digit d = true) (c :: ds) ->
    numeral (c :: ds) (decimal_from 0 (c :: ds))
| numeral_plus (c : ascii) (ds : list ascii) :
    Forall (fun d => Text.is_digit d = true) (c :: ds) ->
    numeral ("+"%char :: c :: ds) (decimal_from 0 (c :: ds))
| numeral_minus (c : ascii) (ds : list ascii) :
    Forall (fun d => Text.is_digit d = true) (c :: ds) ->
    numeral ("-"%char :: c :: ds) (- decimal_from 0 (c :: ds)).

(** The array of the current variable under [n[t][f]], if there is one. *)
Definition current_array (st : state) (t f : string) : option (list pyval) :=
  v ← variable st; lookup3 (normals st) t f v.

(** The locals of [loadfromfile] at the start of the loop. *)
Definition start (self : state) : state :=
  State (meta self) (normals self) None None None.

(** Under a frequency other than Daily and Monthly every variable map of the
    tree is empty. *)
Definition quiet (n : tree) : Prop :=
  forall (t f : string) (fm : freqmap) (vm : varmap),
    n !! t = Some fm -> fm !! f = Some vm ->
    f <> "Daily" -> f <> "Monthly" -> vm = ∅.

(** Every array under the frequency Daily has twelve slots. *)
Definition twelve_slots (n : tree) : Prop :=
  forall (t v : string) (fm : freqmap) (vm : varmap) (arr : list pyval),
    n !! t = Some fm -> fm !! "Daily" = Some vm -> vm !! v = Some arr ->
    length arr = 12%nat.

(** An exception other than the one [loadfromfile] keeps for a month that
    [month_index] does not find. *)
Definition not_unknown_month (e : exn) : Prop :=
  forall month : string, e <> Exception ("unknown month: " +:+ month).

(** ** Vocabulary of the further properties *)

(** Every key of [n], at each of the three levels, is a key of [n']. *)
Definition keeps_keys (n n' : tree) : Prop :=
  forall (t : string) (fm : freqmap),
    n !! t = Some fm ->
    exists fm' : freqmap,
      n' !! t = Some fm'
      /\ forall (f : string) (vm : varmap),
           fm !! f = Some vm ->
           exists vm' : varmap,
             fm' !! f = Some vm'
             /\ forall v : string, is_Some (vm !! v) -> is_Some (vm' !! v).

(** One slot of a daily array: a list of at most 31 integers. *)
Definition month_slot (x : pyval) : Prop :=
  exists zs : list Z, x = PList (ints zs) /\ (length zs <= 31)%nat.

(** The layout the class documents for [normals]: variables exist under
    Daily and Monthly only; a daily variable is twelve slots, each a list of
    at most 31 integers; a monthly variable is a list of at most 12
    integers. *)
Definition shaped (n : tree) : Prop :=
  forall (t f v : string) (fm : freqmap) (vm : varmap) (arr : list pyval),
    n !! t = Some fm -> fm !! f = Some vm -> vm !! v = Some arr ->
    (f = "Daily" /\ length arr = 12%nat /\ Forall month_slot arr)
    \/ (f = "Monthly"
        /\ exists zs : list Z, arr = ints zs /\ (length zs <= 12)%nat).

(** The exceptions a parse of a file can end in. *)
Definition parse_error (e : exn) : Prop :=
  (exists f : string,
     e = Exception ("encountered new frequency '" +:+ f
                    +:+ "' not in any normals type"))
  \/ (exists k : option string, e = KeyError k)
  \/ (exists literal : string, e = ValueError literal).

(** The locals fit the tree: the active type is a key of the tree, a
    frequency is active only under a type, and a variable only under a
    frequency. *)
Definition coherent (st : state) : Prop :=
  (forall t : string, type st = Some t -> is_Some (normals st !! t))
  /\ (is_Some (frequency st) -> is_Some (type st))
  /\ (is_Some (variable st) -> is_Some (frequency st)).

(** A line of the file that the pattern of the metadata lines matches. *)
Definition meta_line (x : string) : bool :=
  match Re.re_match Re.meta_re (Text.strip x) with
  | Some _ => true
  | None => false
  end.

(** A result with the metadata left out of its state. *)
Definition forget_meta (r : result state) : result state :=
  match r with
  | Next st => Next (set_meta ∅ st)
  | Raise e st => Raise e (set_meta ∅ st)
  end.

(** The five assignments of [loadfromfile] to the tree: a new type, a new
    frequency under a type, a new daily variable with its twelve empty
    slots, the values of one month of a daily variable, and the values of a
    monthly variable. *)
Inductive tree_step : tree -> tree -> Prop :=
| step_type (n : tree) (t : string) :
    n !! t = None ->
    tree_step n (<[t := ∅]> n)
| step_frequency (n : tree) (t f : string) (fm : freqmap) :
    n !! t = Some fm -> fm !! f = None ->
    tree_step n (<[t := <[f := ∅]> fm]> n)
| step_variable (n : tree) (t v : string) (fm : freqmap) (vm : varmap) :
    n !! t = Some fm -> fm !! "Daily" = Some vm -> vm !! v = None ->
    tree_step n
      (<[t := <["Daily" := <[v := replicate 12 (PList [])]> vm]> fm]> n)
| step_month (n : tree) (t v : string) (fm : freqmap) (vm : varmap)
    (arr : list pyval) (i : nat) (vals : list Z) :
    n !! t = Some fm -> fm !! "Daily" = Some vm -> vm !! v = Some arr ->
    (i < length arr)%nat -> (length vals <= 31)%nat ->
    tree_step n
      (<[t := <["Daily" := <[v := <[i := PList (ints vals)]> arr]> vm]> fm]> n)
| step_monthly (n : tree) (t v : string) (fm : freqmap) (vm : varmap)
    (vals : list Z) :
    n !! t = Some fm -> fm !! "Monthly" = Some vm ->
    (length vals <= 12)%nat ->
    tree_step n (<[t := <["Monthly" := <[v := ints vals]> vm]> fm]> n).

(** A result with the metadata of its state replaced. *)
Definition with_meta (m : gmap string string) (r : result state)
    : result state :=
  match r with
  | Next st => Next (set_meta m st)
  | Raise e st => Raise e (set_meta m st)
  end.

(** ** Sample rows and states

    Rows in the layout of the station files, used where a property is shown
    at a concrete input. *)

Module Sample.

(** The row that opens a daily variable: the variable, JAN and 31 values. *)
Definition jan_row : string :=
  "dly-tmax-normal JAN 630S 631S 632S 633S 634S 635S 636S 637S " +:+
  "638S 639S 640S 641S 642S 643S 644S 645S 646S 647S 648S 649S " +:+
  "650S 651S 652S 653S 654S 655S 656S 657S 658S 659S 660S".

(** The same variable and month once more, with other values. *)
Definition jan_again : string :=
  "dly-tmax-normal JAN 730R 731R 732R 733R 734R 735R 736R 737R " +:+
  "738R 739R 740R 741R 742R 743R 744R 745R 746R 747R 748R 749R " +:+
  "750R 751R 752R 753R 754R 755R 756R 757R 758R 759R 760R".

(** A continuation row: FEB, 28 values and three sentinels. *)
Definition feb_row : string :=
  "FEB 673S 674S 675S 676S 677S 678S 679S 680S 681S 682S 683S " +:+
  "684S 685S 686S 687S 688S 689S 690S 691S 692S 693S 694S 695S " +:+
  "696S 697S 698S 699S 700S -8888 -8888 -8888".

(** FEB once more, with other values. *)
Definition feb_again : string :=
  "FEB 773R 774R 775R 776R 777R 778R 779R 780R 781R 782R 783R " +:+
  "784R 785R 786R 787R 788R 789R 790R 791R 792R 793R 794R 795R " +:+
  "796R 797R 798R 799R 800R -8888 -8888 -8888".

(** A row of 32 tokens whose first token is no month. *)
Definition xxx_row : string :=
  "XXX 673S 674S 675S 676S 677S 678S 679S 680S 681S 682S 683S " +:+
  "684S 685S 686S 687S 688S 689S 690S 691S 692S 693S 694S 695S " +:+
  "696S 697S 698S 699S 700S -8888 -8888 -8888".

(** A monthly row: the variable and 12 values. *)
Definition mly_row : string :=
  "mly-tmax-normal 652S 691S 758S 843S 936S 1023S 1038S 1013S " +:+
  "971S 862S 730S 632S".

(** A monthly row whose last two values are sentinels. *)
Definition mly_short : string :=
  "mly-snow-normal 12C 7C 3C 0C 0C 0C 0C 0C 0C 0C -8888 -8888".

(** The row that opens a daily variable, with a value that is no integer. *)
Definition jan_bad : string :=
  "dly-tmax-normal JAN 630S 631S 632S 633S 634S 635S 636S 637S " +:+
  "638S 639S 640S 641S 642S 643S 644S 645S 646S 647S 648S 649S " +:+
  "650S 651S 652S 653S 654S 655S 656S 657S 658S n/a 660S".

(** A full monthly row under the name of [mly_short]. *)
Definition mly_short_again : string :=
  "mly-snow-normal 652S 691S 758S 843S 936S 1023S 1038S 1013S 971S " +:+
  "862S 730S 632S".

Definition jan_values : list Z :=
  [630; 631; 632; 633; 634; 635; 636; 637; 638; 639; 640; 641; 642; 643;
   644; 645; 646; 647; 648; 649; 650; 651; 652; 653; 654; 655; 656; 657;
   658; 659; 660]%Z.

Definition jan_values' : list Z :=
  [730; 731; 732; 733; 734; 735; 736; 737; 738; 739; 740; 741; 742; 743;
   744; 745; 746; 747; 748; 749; 750; 751; 752; 753; 754; 755; 756; 757;
   758; 759; 760]%Z.

Definition feb_values : list Z :=
  [673; 674; 675; 676; 677; 678; 679; 680; 681; 682; 683; 684; 685; 686;
   687; 688; 689; 690; 691; 692; 693; 694; 695; 696; 697; 698; 699; 700]%Z.

Definition feb_values' : list Z :=
  [773; 774; 775; 776; 777; 778; 779; 780; 781; 782; 783; 784; 785; 786;
   787; 788; 789; 790; 791; 792; 793; 794; 795; 796; 797; 798; 799; 800]%Z.

Definition mly_values : list Z :=
  [652; 691; 758; 843; 936; 1023; 1038; 1013; 971; 862; 730; 632]%Z.

Definition mly_short_values : list Z :=
  [12; 7; 3; 0; 0; 0; 0; 0; 0; 0]%Z.

Definition T : string := "Temperature-Related".
Definition tmax : string := "dly-tmax-normal".

Definition empty_slots : list pyval := replicate 12 (PList []).

(** The state after the two headers of a daily block. *)
Definition daily_open : state :=
  State ∅ {[T := {["Daily" := ∅]}]} (Some T) (Some "Daily") None.

(** The state after the row that opens [tmax] with the values of JAN. *)
Definition daily_jan : state :=
  State ∅ {[T := {["Daily" :=
             {[tmax := <[0%nat := PList (ints jan_values)]> empty_slots]}]}]}
    (Some T) (Some "Daily") (Some tmax).

(** The state after the two headers of a monthly block. *)
Definition monthly_open : state :=
  State ∅ {[T := {["Monthly" := ∅]}]} (Some T) (Some "Monthly") None.

(** The state after the headers of a block of another frequency. *)
Definition hourly_open : state :=
  State ∅ {[T := {["Hourly" := ∅]}]} (Some T) (Some "Hourly") None.

(** The states after a type line that opened a second type under a
    frequency of the type before: the new type has no dict for it. *)
Definition stale_monthly : state :=
  State ∅ {[T := ∅]} (Some T) (Some "Monthly") None.
Definition stale_daily : state :=
  State ∅ {[T := ∅]} (Some T) (Some "Daily") None.

End Sample.
(** * Properties *)

(** ** [trim_from_end] *)

Section Trim.
Variable value : string.

Lemma last_removelast (l : list string) :
  last l = Some value -> l = removelast l ++ [value].
Proof.
  intros [l' ->]%last_Some. by rewrite removelast_last.
Qed.

Lemma trim_loop_spec (n : nat) : forall array : list string,
  (length array <= n)%nat ->
  exists k : nat,
    array = trim_loop n array value ++ replicate k value
    /\ last (trim_loop n array value) <> Some value.
Proof.
  induction n as [|n IH]; intros array Hlen.
  - destruct array; [|simpl in Hlen; lia]. by exists O.
  - simpl. destruct (decide (last array = Some value)) as [Hl|Hl].
    + pose proof (last_removelast _ Hl) as Hsplit.
      assert (0 < length array)%nat as Hpos.
      { rewrite Hsplit, length_app. simpl. lia. }
      rewrite (bool_decide_eq_true_2 _ Hpos), (bool_decide_eq_true_2 _ Hl).
      simpl. destruct (IH (removelast array)) as (k & Hk & Hlast).
      { rewrite Hsplit, length_app in Hlen. simpl in Hlen. lia. }
      exists (S k). split; [|done].
      rewrite Hsplit at 1. rewrite Hk at 1.
      rewrite <- app_assoc. f_equal.
      change (replicate k value ++ [value]) with
        (replicate k value ++ replicate 1 value).
      rewrite <- replicate_add. f_equal. lia.
    + rewrite (bool_decide_eq_false_2 _ Hl), andb_false_r.
      exists O. by rewrite app_nil_r.
Qed.

(** [length array] turns of the loop are enough: the result no longer
    ends in [value]. *)
Lemma trim_from_end_stops (array : list string) :
  last (trim_from_end array value) <> Some value.
Proof.
  destruct (trim_loop_spec (length array) array) as (k & _ & H); done.
Qed.

Lemma trim_from_end_id (array : list string) :
  last array <> Some value -> trim_from_end array value = array.
Proof.
  intros H. unfold trim_from_end. destruct (length array); [done|].
  simpl. by rewrite (bool_decide_eq_false_2 _ H), andb_false_r.
Qed.

Lemma trim_from_end_idempotent (array : list string) :
  trim_from_end (trim_from_end array value) value = trim_from_end array value.
Proof. apply trim_from_end_id, trim_from_end_stops. Qed.

Lemma trim_from_end_length (array : list string) :
  (length (trim_from_end array value) <= length array)%nat.
Proof.
  destruct (trim_loop_spec (length array) array) as (k & H & _); [done|].
  fold (trim_from_end array value) in H.
  rewrite H at 2. rewrite length_app. lia.
Qed.
End Trim.

(** C7: sentinel trimming removes exactly the maximal trailing run of
    "-8888" tokens (possibly none): the input is the result followed by some
    number of sentinels, and the result does not end in a sentinel, so
    sentinels inside the row stay; the row 10, -8888, 20, -8888, -8888 is
    trimmed to 10, -8888, 20. *)
Theorem trim_from_end_maximal_run :
  (forall tokens : list string,
     exists k : nat,
       tokens = trim_from_end tokens "-8888" ++ replicate k "-8888"
       /\ last (trim_from_end tokens "-8888") <> Some "-8888")
  /\ trim_from_end ["10"; "-8888"; "20"; "-8888"; "-8888"] "-8888"
     = ["10"; "-8888"; "20"].
Proof.
  split; [|reflexivity].
  intros tokens. apply trim_loop_spec. done.
Qed.

(** ** [transform_data] *)

Section Flags.
Import Text Re.

Lemma newline_is_space (c : ascii) : is_newline c = true -> is_space c = true.
Proof.
  unfold is_newline, is_space, between.
  rewrite !andb_true_iff, orb_true_iff, !andb_true_iff, !N.leb_le. lia.
Qed.

Lemma upper_not_space (c : ascii) : is_upper c = true -> is_space c = false.
Proof.
  unfold is_upper, is_space, between.
  rewrite !andb_true_iff, orb_false_iff, !andb_false_iff, !N.leb_le, !N.leb_gt.
  lia.
Qed.

Lemma without_flag_cons (c d : ascii) (l : list ascii) :
  without_flag (c :: d :: l) = c :: without_flag (d :: l).
Proof.
  unfold without_flag. rewrite last_cons_cons.
  destruct (last (d :: l)) as [x|]; [|done].
  by destruct (is_upper x).
Qed.

Lemma sub_flag_spaceless (l : list ascii) : forall seen : list ascii,
  spaceless l -> sub_empty flag_re O seen l = without_flag l.
Proof.
  induction l as [|c l IH]; intros seen Hl; [done|].
  inversion_clear Hl as [|? ? Hc Hl'].
  destruct l as [|d l].
  - cbn. unfold without_flag. simpl. by destruct (is_upper c).
  - rewrite without_flag_cons, <- (IH (c :: seen) Hl').
    assert (is_newline d = false) as Hd.
    { inversion_clear Hl' as [|? ? Hd _].
      destruct (is_newline d) eqn:E; [|done].
      apply newline_is_space in E. congruence. }
    cbn. destruct (is_upper c); [|done].
    destruct l; [|done]. by rewrite Hd.
Qed.
End Flags.

Section Int.
Import Text Re.

Lemma digits_spec (ds : list ascii) : forall (acc z : Z),
  digits acc ds = Some z
  <-> Forall (fun d => is_digit d = true) ds /\ z = decimal_from acc ds.
Proof.
  induction ds as [|c ds IH]; intros acc z; simpl.
  - split; [intros [= <-]; by split | intros [_ ->]; done].
  - destruct (is_digit c) eqn:Hc.
    + rewrite IH. unfold digit_value. split.
      * intros [Hds ->]. split; [by constructor | done].
      * intros [Hds ->]. inversion_clear Hds. by split.
    + split; [done|]. intros [Hds _]. inversion_clear Hds. congruence.
Qed.

Lemma unsigned_spec (ds : list ascii) (z : Z) :
  unsigned ds = Some z
  <-> ds <> [] /\ Forall (fun d => is_digit d = true) ds
      /\ z = decimal_from 0 ds.
Proof.
  destruct ds as [|c ds]; [split; [done | by intros [? _]]|].
  unfold unsigned. rewrite digits_spec. split.
  - by intros [? ?].
  - by intros (_ & ? & ?).
Qed.

Lemma lstrip_spaceless (l : list ascii) : spaceless l -> lstrip l = l.
Proof. intros [|c l' Hc _]; [done|]. simpl. by rewrite Hc. Qed.

Lemma strip_chars_spaceless (l : list ascii) :
  spaceless l -> strip_chars l = l.
Proof.
  intros Hl. unfold strip_chars.
  rewrite (lstrip_spaceless l Hl), lstrip_spaceless, rev_involutive; [done|].
  by apply Forall_rev.
Qed.

Lemma sign_not_digit (c : ascii) :
  is_char "-" c || is_char "+" c = true -> is_digit c = false.
Proof.
  unfold is_char. rewrite orb_true_iff.
  intros [<-%Ascii.eqb_eq| <-%Ascii.eqb_eq]; reflexivity.
Qed.

Lemma int_chars_spec (l : list ascii) (z : Z) :
  spaceless l -> int_chars l = Some z <-> numeral l z.
Proof.
  intros Hl. unfold int_chars. rewrite (strip_chars_spaceless l Hl).
  destruct l as [|c ds]; [split; [done | inversion 1]|].
  unfold is_char.
  destruct (Ascii.eqb_spec "-" c) as [<-|Hm];
    [|destruct (Ascii.eqb_spec "+" c) as [<-|Hp]].
  - rewrite fmap_Some. setoid_rewrite unsigned_spec. split.
    + intros (x & (Hne & Hds & ->) & ->).
      destruct ds; [done|]. by constructor.
    + inversion 1 as [? ? Hds| |? ? Hds]; subst.
      * inversion_clear Hds. discriminate.
      * eexists. split; [|done]. done.
  - rewrite unsigned_spec. split.
    + intros (Hne & Hds & ->). destruct ds; [done|]. by constructor.
    + inversion 1 as [? ? Hds|? ? Hds|]; subst.
      * inversion_clear Hds. discriminate.
      * done.
  - rewrite unsigned_spec. split.
    + intros (Hne & Hds & ->). by constructor.
    + inversion 1; subst; done.
Qed.

Lemma chars_text (l : list ascii) : chars (text l) = l.
Proof. apply list_ascii_of_string_of_list_ascii. Qed.

Lemma int_strip_flag (tok : string) (z : Z) :
  spaceless (chars tok) ->
  int (strip_flag tok) = Some z <-> numeral (without_flag (chars tok)) z.
Proof.
  intros Htok. unfold int, strip_flag, re_sub_empty.
  rewrite chars_text, (sub_flag_spaceless _ [] Htok).
  apply int_chars_spec.
  unfold without_flag. destruct (last (chars tok)) as [c|]; [|done].
  destruct (is_upper c); [|done].
  unfold spaceless in *. clear c.
  induction Htok as [|c l Hc Hl IH]; [done|].
  destruct l; [done|]. by constructor.
Qed.
End Int.

(** C6: flag stripping removes at most one trailing uppercase letter from a
    token and reads what is left as a base-10 integer literal; the
    conversion fails exactly when what is left is no such literal.  The
    tokens 630S, 631R and 633 become 630, 631 and 633. *)
Theorem transform_value_strips_flag (tok : string) :
  spaceless (Text.chars tok) ->
  (forall z : Z,
     transform_value tok = inr z
     <-> numeral (without_flag (Text.chars tok)) z)
  /\ ((exists e : exn, transform_value tok = inl e)
      <-> ~ exists z : Z, numeral (without_flag (Text.chars tok)) z)
  /\ forall type : string,
       transform_data type ["630S"; "631R"; "633"] = inr [630; 631; 633]%Z.
Proof.
  intros Htok. unfold transform_value.
  pose proof (fun z => int_strip_flag tok z Htok) as Hint.
  destruct (int (strip_flag tok)) as [z0|] eqn:E; repeat split.
  - intros [= <-]. by apply Hint.
  - intros Hz%Hint. congruence.
  - intros [e [=]].
  - intros []. exists z0. by apply Hint.
  - done.
  - intros Hz%Hint. done.
  - intros _ [z Hz%Hint]. done.
  - intros _. by eexists.
Qed.

(** The token 630S has no white space, loses its flag and is read as 630. *)
Lemma transform_value_strips_flag_witness :
  transform_value "630S" = inr 630%Z
  <-> numeral (without_flag (Text.chars "630S")) 630%Z.
Proof.
  refine (proj1 (transform_value_strips_flag "630S" _) 630%Z).
  repeat constructor.
Defined.


(** ** The pieces of [re.split] hold no white space *)

Section Split.
Import Text.

Lemma split_ws_spaceless (l : list ascii) : forall (in_run : bool) (cur : list ascii),
  spaceless cur -> Forall spaceless (split_ws in_run cur l).
Proof.
  induction l as [|c l IH]; intros in_run cur Hcur; simpl.
  - constructor; [|done]. by apply Forall_rev.
  - destruct (is_space c) eqn:Hc.
    + destruct in_run.
      * apply IH. constructor.
      * constructor; [by apply Forall_rev|]. apply IH. constructor.
    + apply IH. by constructor.
Qed.

Lemma re_split_ws_spaceless (line tok : string) :
  tok ∈ re_split_ws line -> spaceless (chars tok).
Proof.
  unfold re_split_ws. intros (l & -> & Hl)%list_elem_of_fmap.
  rewrite chars_text.
  assert (spaceless []) as Hnil by constructor.
  pose proof (split_ws_spaceless (chars line) false [] Hnil) as H.
  rewrite Forall_forall in H. by apply H.
Qed.
End Split.

(** ** The statements of the loop body *)

Section Body.
Implicit Types (st : state) (t f v line month : string).
Implicit Types (fm : freqmap) (vm : varmap) (arr : list pyval).

Lemma month_index_from_spec (ms : list string) month : forall (k : Z),
  month ∈ ms ->
  exists i : nat,
    month_index_from k ms month = (k + Z.of_nat i)%Z
    /\ ms !! i = Some month.
Proof.
  induction ms as [|m ms IH]; intros k Hin; [by apply elem_of_nil in Hin|].
  simpl. case_bool_decide as Hm.
  - exists O. subst. split; [lia | done].
  - apply elem_of_cons in Hin as [->|Hin]; [done|].
    destruct (IH (k + 1)%Z Hin) as (i & Hi & Hlook).
    exists (S i). split; [lia | done].
Qed.

(** [month_index] finds every month of the table at its position, JAN at
    0 and DEC at 11. *)
Lemma month_index_spec month :
  month ∈ months ->
  exists i : nat,
    month_index month = Z.of_nat i /\ (i < 12)%nat /\ months !! i = Some month.
Proof.
  intros Hin.
  destruct (month_index_from_spec months month 0 Hin) as (i & Hi & Hlook).
  exists i. split; [exact Hi|]. split; [|done].
  apply lookup_lt_Some in Hlook. exact Hlook.
Qed.

Lemma transform_data_length t (values : list string) : forall zs : list Z,
  transform_data t values = inr zs -> length zs = length values.
Proof.
  induction values as [|val values IH]; simpl; intros zs.
  - by intros [= <-].
  - destruct (transform_value val); [done|].
    destruct (transform_data t values); [done|].
    intros [= <-]. simpl. f_equal. by apply IH.
Qed.

Lemma transform_data_error t (values : list string) (e : exn) :
  transform_data t values = inl e -> exists s : string, e = ValueError s.
Proof.
  induction values as [|val values IH]; simpl; [done|].
  unfold transform_value at 1.
  destruct (int (strip_flag val)); [|intros [= <-]; by eexists].
  destruct (transform_data t values); [|done].
  intros [= <-]. by apply IH.
Qed.

Lemma getitem2_found st t f fm vm :
  normals st !! t = Some fm -> fm !! f = Some vm ->
  getitem2 st t f = Next (fm, vm).
Proof. intros Ht Hf. unfold getitem2. by rewrite Ht, Hf. Qed.

Lemma daily_variable_skip st t f (columns : list string) :
  length columns <> 33%nat ->
  daily_variable st t f columns = Next (st, columns).
Proof.
  intros Hlen. unfold daily_variable.
  by rewrite (bool_decide_eq_false_2 _ Hlen).
Qed.

Lemma daily_variable_opens st t f v month (rest : list string) fm vm :
  normals st !! t = Some fm -> fm !! f = Some vm ->
  length rest = 31%nat -> month ∈ months ->
  daily_variable st t f (v :: month :: rest)
  = Next (match vm !! v with
          | None => setitem3 (set_variable (Some v) st) t f v fm vm
                      (replicate 12 (PList []))
          | Some _ => set_variable (Some v) st
          end, month :: rest).
Proof.
  intros Ht Hf Hlen Hm. unfold daily_variable.
  rewrite bool_decide_eq_true_2 by (simpl; lia).
  unfold is_month. simpl nth. rewrite (bool_decide_eq_true_2 _ Hm). simpl.
  rewrite (getitem2_found _ t f fm vm) by done. simpl.
  by destruct (vm !! v).
Qed.

Lemma daily_month_skip st t f (columns : list string) :
  length columns <> 32%nat \/ hd "" columns ∉ months ->
  daily_month st t f columns = Next st.
Proof.
  intros H. unfold daily_month, is_month.
  destruct H as [H|H].
  - by rewrite (bool_decide_eq_false_2 _ H).
  - by rewrite (bool_decide_eq_false_2 _ H), andb_false_r.
Qed.

(** A row of one month's values, up to the assignment. *)
Lemma daily_month_assignment st t f month (rest : list string) :
  length rest = 31%nat -> month ∈ months ->
  exists i : nat,
    (i < 12)%nat /\ months !! i = Some month
    /\ daily_month st t f (month :: rest)
       = (vals ← raise_in st (transform_data t (trim_from_end rest "-8888"));
          '(fm, vm) ← getitem2 st t f;
          match variable st with
          | None => Raise (KeyError None) st
          | Some v =>
              match vm !! v with
              | None => Raise (KeyError (Some v)) st
              | Some arr =>
                  if bool_decide (i < length arr)%nat
                  then Next (setitem3 st t f v fm vm
                               (<[i := PList (ints vals)]> arr))
                  else Raise IndexError st
              end
          end).
Proof.
  intros Hlen Hm.
  destruct (month_index_spec month Hm) as (i & Hi & Hlt & Hlook).
  exists i. split; [done|]. split; [done|].
  unfold daily_month, is_month.
  rewrite bool_decide_eq_true_2 by (simpl; lia).
  simpl hd. simpl tl. rewrite (bool_decide_eq_true_2 _ Hm). simpl andb. cbv iota.
  rewrite Hi, Nat2Z.id.
  replace ((Z.of_nat i <? 0) || (Z.of_nat i >=? 12))%Z with false; [done|].
  symmetry. rewrite Z.geb_leb. apply orb_false_iff.
  split; [apply Z.ltb_ge | apply Z.leb_gt]; lia.
Qed.

Lemma daily_month_stores st t f v month (rest : list string) fm vm arr
    (vals : list Z) :
  normals st !! t = Some fm -> fm !! f = Some vm ->
  variable st = Some v -> vm !! v = Some arr -> length arr = 12%nat ->
  length rest = 31%nat -> month ∈ months ->
  transform_data t (trim_from_end rest "-8888") = inr vals ->
  exists i : nat,
    (i < 12)%nat /\ months !! i = Some month
    /\ daily_month st t f (month :: rest)
       = Next (setitem3 st t f v fm vm (<[i := PList (ints vals)]> arr)).
Proof.
  intros Ht Hf Hv Harr Hlen12 Hlen Hm Hvals.
  destruct (daily_month_assignment st t f month rest Hlen Hm) as (i & Hlt & Hlook & ->).
  exists i. split; [done|]. split; [done|].
  rewrite Hvals. simpl. rewrite (getitem2_found _ t f fm vm) by done. simpl.
  rewrite Hv, Harr. rewrite bool_decide_eq_true_2 by lia. done.
Qed.

Lemma body_data_row st t line :
  data_row line -> type st = Some t ->
  body st line
  = (st' ← when_frequency "Daily" daily t line st;
     when_frequency "Monthly" monthly t line st').
Proof.
  intros (Hm & Ht & Hf) Hty. unfold body. by rewrite Hm, Ht, Hf, Hty.
Qed.

Lemma when_frequency_eq name block t line st :
  frequency st = Some name ->
  when_frequency name block t line st = block st t name line.
Proof.
  intros Hfr. unfold when_frequency. rewrite Hfr.
  by rewrite bool_decide_eq_true_2.
Qed.

Lemma when_frequency_ne name block t line st :
  frequency st <> Some name ->
  when_frequency name block t line st = Next st.
Proof.
  intros Hfr. unfold when_frequency. destruct (frequency st) as [f|]; [|done].
  rewrite bool_decide_eq_false_2; [done|]. congruence.
Qed.

Lemma body_daily st t line :
  data_row line -> type st = Some t -> frequency st = Some "Daily" ->
  body st line
  = (st' ← daily st t "Daily" line;
     when_frequency "Monthly" monthly t line st').
Proof.
  intros Hrow Hty Hfr. rewrite (body_data_row st t) by done.
  by rewrite (when_frequency_eq "Daily") by done.
Qed.

Lemma body_monthly st t line :
  data_row line -> type st = Some t -> frequency st = Some "Monthly" ->
  body st line = monthly st t "Monthly" line.
Proof.
  intros Hrow Hty Hfr. rewrite (body_data_row st t) by done.
  rewrite (when_frequency_ne "Daily") by (rewrite Hfr; done). simpl.
  by rewrite (when_frequency_eq "Monthly") by done.
Qed.

Lemma body_other st t line :
  data_row line -> type st = Some t ->
  frequency st <> Some "Daily" -> frequency st <> Some "Monthly" ->
  body st line = Next st.
Proof.
  intros Hrow Hty Hd Hm. rewrite (body_data_row st t) by done.
  rewrite (when_frequency_ne "Daily") by done. simpl.
  by rewrite (when_frequency_ne "Monthly") by done.
Qed.
End Body.

(** ** Rows of a daily block *)

Section Daily.
Import Text.
Implicit Types (st : state) (t f v line : string).
Implicit Types (fm : freqmap) (vm : varmap) (arr : list pyval).

(** A row of 33 columns with a month in second place: the variable is
    registered if it is new, and the 32 columns left are then read as the
    row of that month. *)
Lemma opening_row_effect st t fm vm line (vals : list Z) :
  type st = Some t -> frequency st = Some "Daily" ->
  normals st !! t = Some fm -> fm !! "Daily" = Some vm ->
  (forall arr, vm !! hd "" (re_split_ws line) = Some arr -> length arr = 12%nat) ->
  data_row line ->
  length (re_split_ws line) = 33%nat ->
  nth 1 (re_split_ws line) "" ∈ months ->
  transform_data t (trim_from_end (tl (tl (re_split_ws line))) "-8888")
  = inr vals ->
  exists i : nat,
    (i < 12)%nat
    /\ months !! i = Some (nth 1 (re_split_ws line) "")
    /\ body st line
       = Next (State (meta st)
           (<[t := <["Daily" :=
               <[hd "" (re_split_ws line) :=
                   <[i := PList (ints vals)]>
                     (default (replicate 12 (PList []))
                        (vm !! hd "" (re_split_ws line)))]> vm]> fm]>
              (normals st))
           (Some t) (Some "Daily") (Some (hd "" (re_split_ws line)))).
Proof.
  intros Hty Hfr Ht Hf Harr Hrow Hlen Hm Hvals.
  rewrite (body_daily st t line) by done. unfold daily.
  destruct (re_split_ws line) as [|v [|month rest]]; [done..|].
  simpl in *. injection Hlen as Hlen.
  rewrite (daily_variable_opens st t "Daily" v month rest fm vm) by done.
  destruct (vm !! v) as [arr|] eqn:Hv.
  - simpl.
    destruct (daily_month_stores (set_variable (Some v) st) t "Daily" v month
                rest fm vm arr vals) as (i & Hlt & Hlook & ->); try done.
    { by apply Harr. }
    exists i. split; [done|]. split; [done|]. simpl.
    rewrite when_frequency_ne by (simpl; rewrite Hfr; done).
    unfold setitem3, set_normals, set_variable. simpl. by rewrite Hty, Hfr.
  - remember (replicate 12 (PList [])) as rep eqn:Hrep.
    remember (setitem3 (set_variable (Some v) st) t "Daily" v fm vm rep)
      as st1 eqn:Hst1.
    simpl.
    destruct (daily_month_stores st1 t "Daily" v month rest
                (<["Daily" := <[v := rep]> vm]> fm) (<[v := rep]> vm) rep vals)
      as (i & Hlt & Hlook & ->); try done.
    { subst st1. simpl. by rewrite lookup_insert_eq. }
    { by rewrite lookup_insert_eq. }
    { by subst st1. }
    { by rewrite lookup_insert_eq. }
    { by subst rep. }
    exists i. split; [done|]. split; [done|]. simpl.
    rewrite when_frequency_ne by (subst st1; simpl; rewrite Hfr; done).
    subst st1 rep. unfold setitem3, set_normals, set_variable. simpl.
    by rewrite !insert_insert_eq, Hty, Hfr.
Qed.
End Daily.

(** A row of 32 columns with a month in first place. *)
Lemma continuation_row_effect (st : state) (t v line : string)
    (fm : freqmap) (vm : varmap) (arr : list pyval) (vals : list Z) :
  type st = Some t -> frequency st = Some "Daily" -> variable st = Some v ->
  normals st !! t = Some fm -> fm !! "Daily" = Some vm ->
  vm !! v = Some arr -> length arr = 12%nat ->
  data_row line ->
  length (Text.re_split_ws line) = 32%nat ->
  hd "" (Text.re_split_ws line) ∈ months ->
  transform_data t (trim_from_end (tl (Text.re_split_ws line)) "-8888")
  = inr vals ->
  exists i : nat,
    (i < 12)%nat
    /\ months !! i = Some (hd "" (Text.re_split_ws line))
    /\ body st line
       = Next (set_normals
                 (<[t := <["Daily" :=
                     <[v := <[i := PList (ints vals)]> arr]> vm]> fm]>
                    (normals st)) st)
    /\ <[i := PList (ints vals)]> arr !! i = Some (PList (ints vals))
    /\ forall j : nat, j <> i -> <[i := PList (ints vals)]> arr !! j = arr !! j.
Proof.
  intros Hty Hfr Hv Ht Hf Harr Hlen12 Hrow Hlen Hm Hvals.
  rewrite (body_daily st t line) by done. unfold daily.
  rewrite daily_variable_skip by lia. simpl.
  destruct (Text.re_split_ws line) as [|month rest]; [done|].
  simpl in *. injection Hlen as Hlen.
  destruct (daily_month_stores st t "Daily" v month rest fm vm arr vals)
    as (i & Hlt & Hlook & ->); try done.
  exists i. split; [done|]. split; [done|]. simpl. split.
  - by rewrite when_frequency_ne by (simpl; rewrite Hfr; done).
  - split.
    + apply list_lookup_insert_eq. lia.
    + intros j Hj. by apply list_lookup_insert_ne.
Qed.

(** C5: a daily row of exactly 32 tokens whose first token is a month, read
    under an active type, the frequency Daily and a registered variable with
    its 12 slots, puts the flag-stripped integers of the sentinel-trimmed 31
    other tokens into the slot of that month (JAN is slot 0, DEC slot 11) and
    leaves the other slots as they were: the array read back from the tree
    after the row holds those integers at the month's index and the old
    values everywhere else. *)
Theorem daily_month_row_stored (st : state) (t v line : string)
    (fm : freqmap) (vm : varmap) (arr : list pyval) (vals : list Z) :
  type st = Some t -> frequency st = Some "Daily" -> variable st = Some v ->
  normals st !! t = Some fm -> fm !! "Daily" = Some vm ->
  vm !! v = Some arr -> length arr = 12%nat ->
  data_row line ->
  length (Text.re_split_ws line) = 32%nat ->
  hd "" (Text.re_split_ws line) ∈ months ->
  transform_data t (trim_from_end (tl (Text.re_split_ws line)) "-8888")
  = inr vals ->
  exists (i : nat) (st' : state) (arr' : list pyval),
    (i < 12)%nat
    /\ months !! i = Some (hd "" (Text.re_split_ws line))
    /\ body st line = Next st'
    /\ st' = State (meta st)
               (<[t := <["Daily" :=
                   <[v := <[i := PList (ints vals)]> arr]> vm]> fm]>
                  (normals st))
               (Some t) (Some "Daily") (Some v)
    /\ lookup3 (normals st') t "Daily" v = Some arr'
    /\ length arr' = 12%nat
    /\ arr' !! i = Some (PList (ints vals))
    /\ forall j : nat, j <> i -> arr' !! j = arr !! j.
Proof.
  intros Hty Hfr Hv Ht Hf Harr Hlen12 Hrow Hlen Hm Hvals.
  destruct (continuation_row_effect st t v line fm vm arr vals)
    as (i & Hlt & Hlook & Hbody & Hslot & Hrest); try done.
  exists i. eexists. exists (<[i := PList (ints vals)]> arr).
  split; [done|]. split; [done|]. split; [exact Hbody|].
  split.
  { unfold set_normals. by rewrite Hty, Hfr, Hv. }
  split.
  { unfold lookup3. simpl. rewrite lookup_insert_eq. simpl.
    rewrite lookup_insert_eq. simpl. by rewrite lookup_insert_eq. }
  split; [by rewrite length_insert|]. by split.
Qed.

(** After the row that opened dly-tmax-normal, the FEB row fills slot 1. *)
Lemma daily_month_row_stored_witness :
  exists (i : nat) (st' : state) (arr' : list pyval),
    (i < 12)%nat
    /\ months !! i = Some (hd "" (Text.re_split_ws Sample.feb_row))
    /\ body Sample.daily_jan Sample.feb_row = Next st'
    /\ st' = State (meta Sample.daily_jan)
               (<[Sample.T := <["Daily" :=
                   <[Sample.tmax :=
                       <[i := PList (ints Sample.feb_values)]>
                         (<[0%nat := PList (ints Sample.jan_values)]>
                            Sample.empty_slots)]>
                     {[Sample.tmax :=
                         <[0%nat := PList (ints Sample.jan_values)]>
                           Sample.empty_slots]}]>
                   {["Daily" :=
                       {[Sample.tmax :=
                           <[0%nat := PList (ints Sample.jan_values)]>
                             Sample.empty_slots]}]}]>
                  (normals Sample.daily_jan))
               (Some Sample.T) (Some "Daily") (Some Sample.tmax)
    /\ lookup3 (normals st') Sample.T "Daily" Sample.tmax = Some arr'
    /\ length arr' = 12%nat
    /\ arr' !! i = Some (PList (ints Sample.feb_values))
    /\ forall j : nat, j <> i ->
         arr' !! j
         = <[0%nat := PList (ints Sample.jan_values)]> Sample.empty_slots !! j.
Proof.
  apply (daily_month_row_stored Sample.daily_jan Sample.T Sample.tmax
           Sample.feb_row);
    try reflexivity;
    try (vm_compute; reflexivity).
  - repeat split; vm_compute; reflexivity.
  - apply (bool_decide_unpack _). vm_compute. exact I.
Defined.

(** ** The loop *)

Section Loop.
Implicit Types (st : state) (f pre post : list string) (x : string).

Lemma loop_app st pre post :
  loop st (pre ++ post) = (st' ← loop st pre; loop st' post).
Proof.
  revert st. induction pre as [|x pre IH]; intros st; [done|].
  simpl. destruct (body st (Text.strip x)) as [st'|e st']; [|done].
  simpl. apply IH.
Qed.

(** A raise ends the loop: the lines after it are not read. *)
Lemma loop_raise st pre x post st1 (e : exn) st2 :
  loop st pre = Next st1 ->
  body st1 (Text.strip x) = Raise e st2 ->
  loop st (pre ++ x :: post) = Raise e st2.
Proof.
  intros Hpre Hx. rewrite loop_app, Hpre. simpl. by rewrite Hx.
Qed.
End Loop.

(** C4: when a line that opens a frequency is read while no type is active,
    the parser raises, with the object as the lines before left it; the
    lines after it are not read. *)
Theorem frequency_without_type_raises (self : state)
    (pre post : list string) (x : string) (st1 : state) (m : list string) :
  loop (start self) pre = Next st1 ->
  type st1 = None ->
  Re.re_match Re.meta_re (Text.strip x) = None ->
  Re.re_match Re.type_re (Text.strip x) = None ->
  Re.re_match Re.frequency_re (Text.strip x) = Some m ->
  loadfromfile self (pre ++ x :: post)
  = Raise (Exception ("encountered new frequency '" +:+ Re.group m 1
                      +:+ "' not in any normals type"))
          (set_frequency (Some (Re.group m 1)) st1).
Proof.
  intros Hpre Hty Hm Ht Hf. unfold loadfromfile. fold (start self).
  apply (loop_raise _ _ _ _ st1); [done|].
  unfold body. rewrite Hm, Ht, Hf. simpl. by rewrite Hty.
Qed.

(** A file whose first header is Daily: the raise comes at that line. *)
Lemma frequency_without_type_raises_witness :
  loadfromfile new (["Station Name: EXAMPLE"] ++ "Daily" :: [Sample.jan_row])
  = Raise (Exception ("encountered new frequency '" +:+ Re.group ["Daily"] 1
                      +:+ "' not in any normals type"))
          (set_frequency (Some (Re.group ["Daily"] 1))
             (State {["Station Name" := "EXAMPLE"]} ∅ None None None)).
Proof.
  apply (frequency_without_type_raises new ["Station Name: EXAMPLE"]
           [Sample.jan_row] "Daily");
    vm_compute; reflexivity.
Defined.

(** C8: a daily row of 32 tokens with a month in first place, read while
    the current variable has no array under the active type and frequency,
    ends the parse with an exception at that row. *)
Theorem daily_month_row_without_variable_raises (self : state)
    (pre post : list string) (x : string) (st : state) (t : string) :
  loop (start self) pre = Next st ->
  type st = Some t -> frequency st = Some "Daily" ->
  current_array st t "Daily" = None ->
  data_row (Text.strip x) ->
  length (Text.re_split_ws (Text.strip x)) = 32%nat ->
  hd "" (Text.re_split_ws (Text.strip x)) ∈ months ->
  exists e : exn,
    loadfromfile self (pre ++ x :: post) = Raise e st
    /\ ((exists k, e = KeyError k) \/ (exists s, e = ValueError s)).
Proof.
  intros Hpre Hty Hfr Hcur Hrow Hlen Hm.
  assert (exists e : exn, body st (Text.strip x) = Raise e st
            /\ ((exists k, e = KeyError k) \/ (exists s, e = ValueError s)))
    as (e & Hbody & He).
  { rewrite (body_daily st t) by done. unfold daily.
    rewrite daily_variable_skip by lia. simpl.
    destruct (Text.re_split_ws (Text.strip x)) as [|month rest]; [done|].
    simpl in Hlen, Hm. injection Hlen as Hlen.
    destruct (daily_month_assignment st t "Daily" month rest Hlen Hm)
      as (i & _ & _ & ->).
    destruct (transform_data t (trim_from_end rest "-8888")) as [e|vals] eqn:E.
    { exists e. split; [done|]. right. by apply (transform_data_error _ _ _ E). }
    simpl. unfold current_array, lookup3 in Hcur. unfold getitem2.
    destruct (normals st !! t) as [fm|]; [|by eauto]. cbn in Hcur.
    destruct (fm !! "Daily") as [vm|]; [|by eauto]. cbn in Hcur. simpl.
    destruct (variable st) as [v|]; [|by eauto].
    cbn in Hcur. rewrite Hcur. by eauto. }
  exists e. split; [|done].
  unfold loadfromfile. fold (start self). by apply (loop_raise _ _ _ _ st).
Qed.

(** A FEB row right after the headers of a daily block: no variable yet. *)
Lemma daily_month_row_without_variable_raises_witness :
  exists e : exn,
    loadfromfile new
      (["Temperature-Related Normals"; "Daily"] ++ Sample.feb_row :: [])
    = Raise e Sample.daily_open
    /\ ((exists k, e = KeyError k) \/ (exists s, e = ValueError s)).
Proof.
  apply (daily_month_row_without_variable_raises new
           ["Temperature-Related Normals"; "Daily"] [] Sample.feb_row
           Sample.daily_open Sample.T);
    try (vm_compute; reflexivity).
  - repeat split; vm_compute; reflexivity.
  - apply (bool_decide_unpack _). vm_compute. exact I.
Defined.

(** ** The row that opens a daily variable *)

(** C1 as stated fails: the row that opens dly-tmax-normal is read on as
    the row of JAN, and its 31 values end up in slot 0 instead of leaving
    twelve empty slots. *)
Lemma daily_opening_row_not_only_registered :
  data_row Sample.jan_row
  /\ length (Text.re_split_ws Sample.jan_row) = 33%nat
  /\ nth 1 (Text.re_split_ws Sample.jan_row) "" ∈ months
  /\ StationNormals ["Temperature-Related Normals"; "Daily"; Sample.jan_row]
     = Next Sample.daily_jan
  /\ lookup3 (normals Sample.daily_jan) Sample.T "Daily" Sample.tmax
     = Some (PList (ints Sample.jan_values) :: replicate 11 (PList []))
  /\ lookup3 (normals Sample.daily_jan) Sample.T "Daily" Sample.tmax
     <> Some (replicate 12 (PList [])).
Proof.
  split; [repeat split; vm_compute; reflexivity|].
  split; [vm_compute; reflexivity|].
  split; [apply (bool_decide_unpack _); vm_compute; exact I|].
  split; [vm_compute; reflexivity|].
  split; [vm_compute; reflexivity|].
  vm_compute. discriminate.
Qed.

(** C1, amended: a daily row of exactly 33 tokens with a month in second
    place registers its first token as a new variable with 12 empty slots
    and is then read on as the row of that month: the flag-stripped integers
    of its sentinel-trimmed 31 last tokens are stored in the month's slot. *)
Theorem daily_opening_row_registers_and_stores (st : state) (t line : string)
    (fm : freqmap) (vm : varmap) (vals : list Z) :
  type st = Some t -> frequency st = Some "Daily" ->
  normals st !! t = Some fm -> fm !! "Daily" = Some vm ->
  vm !! hd "" (Text.re_split_ws line) = None ->
  data_row line ->
  length (Text.re_split_ws line) = 33%nat ->
  nth 1 (Text.re_split_ws line) "" ∈ months ->
  transform_data t (trim_from_end (tl (tl (Text.re_split_ws line))) "-8888")
  = inr vals ->
  exists i : nat,
    (i < 12)%nat
    /\ months !! i = Some (nth 1 (Text.re_split_ws line) "")
    /\ body st line
       = Next (State (meta st)
           (<[t := <["Daily" :=
               <[hd "" (Text.re_split_ws line) :=
                   <[i := PList (ints vals)]> (replicate 12 (PList []))]>
                 vm]> fm]> (normals st))
           (Some t) (Some "Daily") (Some (hd "" (Text.re_split_ws line)))).
Proof.
  intros Hty Hfr Ht Hf Hnew Hrow Hlen Hm Hvals.
  destruct (opening_row_effect st t fm vm line vals)
    as (i & Hlt & Hlook & Hbody); try done.
  { intros arr. by rewrite Hnew. }
  exists i. split; [done|]. split; [done|].
  rewrite Hbody, Hnew. done.
Qed.

(** The row that opens dly-tmax-normal, read after the two headers. *)
Lemma daily_opening_row_registers_and_stores_witness :
  exists i : nat,
    (i < 12)%nat
    /\ months !! i = Some (nth 1 (Text.re_split_ws Sample.jan_row) "")
    /\ body Sample.daily_open Sample.jan_row
       = Next (State (meta Sample.daily_open)
           (<[Sample.T := <["Daily" :=
               <[hd "" (Text.re_split_ws Sample.jan_row) :=
                   <[i := PList (ints Sample.jan_values)]>
                     (replicate 12 (PList []))]>
                 ∅]> {["Daily" := ∅]}]> (normals Sample.daily_open))
           (Some Sample.T) (Some "Daily")
           (Some (hd "" (Text.re_split_ws Sample.jan_row)))).
Proof.
  apply (daily_opening_row_registers_and_stores Sample.daily_open Sample.T
           Sample.jan_row);
    try (vm_compute; reflexivity).
  - repeat split; vm_compute; reflexivity.
  - apply (bool_decide_unpack _). vm_compute. exact I.
Defined.

(** ** Rows of a monthly block *)

(** A row of 13 columns. *)
Lemma monthly_row_effect (st : state) (t line : string) (fm : freqmap) (vm : varmap)
    (vals : list Z) :
  type st = Some t -> frequency st = Some "Monthly" ->
  normals st !! t = Some fm -> fm !! "Monthly" = Some vm ->
  data_row line ->
  length (Text.re_split_ws line) = 13%nat ->
  transform_data t (trim_from_end (tl (Text.re_split_ws line)) "-8888")
  = inr vals ->
  body st line
  = Next (State (meta st)
       (<[t := <["Monthly" :=
           <[hd "" (Text.re_split_ws line) := ints vals]> vm]> fm]>
          (normals st))
       (Some t) (Some "Monthly") (Some (hd "" (Text.re_split_ws line)))).
Proof.
  intros Hty Hfr Ht Hf Hrow Hlen Hvals.
  rewrite (body_monthly st t line) by done. unfold monthly.
  rewrite (bool_decide_eq_true_2 _ Hlen). cbv zeta.
  rewrite Hvals. simpl.
  rewrite (getitem2_found _ t "Monthly" fm vm) by done. simpl.
  unfold setitem3, set_normals, set_variable. simpl. by rewrite Hty, Hfr.
Qed.

(** C2 as stated fails: the sentinels that end a monthly row are trimmed as
    well, and the variable is stored with fewer than 12 integers. *)
Lemma monthly_row_is_trimmed :
  data_row Sample.mly_short
  /\ length (Text.re_split_ws Sample.mly_short) = 13%nat
  /\ StationNormals ["Temperature-Related Normals"; "Monthly"; Sample.mly_short]
     = Next (State ∅
          {[Sample.T := {["Monthly" :=
              {["mly-snow-normal" := ints Sample.mly_short_values]}]}]}
          (Some Sample.T) (Some "Monthly") (Some "mly-snow-normal"))
  /\ length (ints Sample.mly_short_values) = 10%nat.
Proof.
  split; [repeat split; vm_compute; reflexivity|].
  repeat split; vm_compute; reflexivity.
Qed.

(** C2, amended: sentinel trimming is applied to monthly rows as it is to
    daily rows: a monthly row of 13 tokens stores, under its first token, the
    flag-stripped integers of its sentinel-trimmed 12 other tokens, in order;
    these are exactly 12 integers when the row does not end in the sentinel,
    and fewer otherwise. *)
Theorem monthly_row_stored_trimmed (st : state) (t line : string)
    (fm : freqmap) (vm : varmap) (vals : list Z) :
  type st = Some t -> frequency st = Some "Monthly" ->
  normals st !! t = Some fm -> fm !! "Monthly" = Some vm ->
  data_row line ->
  length (Text.re_split_ws line) = 13%nat ->
  transform_data t (trim_from_end (tl (Text.re_split_ws line)) "-8888")
  = inr vals ->
  body st line
  = Next (State (meta st)
       (<[t := <["Monthly" :=
           <[hd "" (Text.re_split_ws line) := ints vals]> vm]> fm]>
          (normals st))
       (Some t) (Some "Monthly") (Some (hd "" (Text.re_split_ws line))))
  /\ (last (Text.re_split_ws line) <> Some "-8888" ->
      length (ints vals) = 12%nat
      /\ transform_data t (tl (Text.re_split_ws line)) = inr vals)
  /\ (last (Text.re_split_ws line) = Some "-8888" ->
      (length (ints vals) < 12)%nat).
Proof.
  intros Hty Hfr Ht Hf Hrow Hlen Hvals.
  split; [by apply monthly_row_effect|].
  apply transform_data_length in Hvals as Hlenv.
  unfold ints. rewrite length_map, Hlenv.
  destruct (Text.re_split_ws line) as [|v rest]; [done|].
  simpl in *. injection Hlen as Hlen.
  destruct rest as [|c rest]; [done|]. rewrite last_cons_cons. split.
  - intros Hlast. rewrite trim_from_end_id in Hvals |- * by done. done.
  - intros Hlast.
    destruct (trim_loop_spec "-8888" (length (c :: rest)) (c :: rest))
      as (k & Hk & Hstop); [done|].
    fold (trim_from_end (c :: rest) "-8888") in Hk, Hstop.
    destruct k as [|k].
    { simpl in Hk. rewrite app_nil_r in Hk. rewrite <- Hk in Hstop. done. }
    rewrite <- Hlen. rewrite Hk at 2. rewrite length_app, length_replicate. lia.
Qed.

(** The monthly row that ends in two sentinels, after the two headers. *)
Lemma monthly_row_stored_trimmed_witness :
  body Sample.monthly_open Sample.mly_short
  = Next (State (meta Sample.monthly_open)
       (<[Sample.T := <["Monthly" :=
           <[hd "" (Text.re_split_ws Sample.mly_short) :=
               ints Sample.mly_short_values]> ∅]> {["Monthly" := ∅]}]>
          (normals Sample.monthly_open))
       (Some Sample.T) (Some "Monthly")
       (Some (hd "" (Text.re_split_ws Sample.mly_short))))
  /\ (last (Text.re_split_ws Sample.mly_short) <> Some "-8888" ->
      length (ints Sample.mly_short_values) = 12%nat
      /\ transform_data Sample.T (tl (Text.re_split_ws Sample.mly_short))
         = inr Sample.mly_short_values)
  /\ (last (Text.re_split_ws Sample.mly_short) = Some "-8888" ->
      (length (ints Sample.mly_short_values) < 12)%nat).
Proof.
  apply (monthly_row_stored_trimmed Sample.monthly_open Sample.T
           Sample.mly_short);
    try (vm_compute; reflexivity).
  repeat split; vm_compute; reflexivity.
Defined.

(** ** Daily rows that are not read *)

(** C3 as stated fails: a row of 32 tokens whose first token is no month is
    passed over, and the parse goes on without an exception. *)
Lemma daily_unknown_month_row_does_not_raise :
  data_row Sample.xxx_row
  /\ length (Text.re_split_ws Sample.xxx_row) = 32%nat
  /\ (hd "" (Text.re_split_ws Sample.xxx_row) ∉ months)
  /\ StationNormals ["Temperature-Related Normals"; "Daily"; Sample.jan_row;
                     Sample.xxx_row]
     = Next Sample.daily_jan.
Proof.
  split; [repeat split; vm_compute; reflexivity|].
  split; [vm_compute; reflexivity|].
  split; [|vm_compute; reflexivity].
  apply (bool_decide_unpack _). vm_compute. exact I.
Qed.

(** C3, amended: a daily row of exactly 32 tokens whose first token is none
    of the 12 month abbreviations is passed over: no exception is raised and
    the state is left as it was. *)
Theorem daily_unknown_month_row_ignored (st : state) (t line : string) :
  type st = Some t -> frequency st = Some "Daily" ->
  data_row line ->
  length (Text.re_split_ws line) = 32%nat ->
  hd "" (Text.re_split_ws line) ∉ months ->
  body st line = Next st.
Proof.
  intros Hty Hfr Hrow Hlen Hm.
  rewrite (body_daily st t line) by done. unfold daily.
  rewrite daily_variable_skip by lia. simpl.
  rewrite daily_month_skip by (by right). simpl.
  by rewrite when_frequency_ne by (rewrite Hfr; done).
Qed.

Lemma daily_unknown_month_row_ignored_witness :
  body Sample.daily_jan Sample.xxx_row = Next Sample.daily_jan.
Proof.
  apply (daily_unknown_month_row_ignored Sample.daily_jan Sample.T);
    try (vm_compute; reflexivity).
  - repeat split; vm_compute; reflexivity.
  - apply (bool_decide_unpack _). vm_compute. exact I.
Defined.

(** ** Frequencies other than Daily and Monthly *)

Section Quiet.
Implicit Types (st : state) (t f v line : string) (n : tree).
Implicit Types (fm : freqmap) (vm : varmap).

Lemma quiet_insert_type n t : quiet n -> quiet (<[t := ∅]> n).
Proof.
  intros Hq t' f' fm' vm' Ht' Hf'.
  destruct (decide (t = t')) as [->|Hne].
  - rewrite lookup_insert_eq in Ht'. injection Ht' as <-.
    by rewrite lookup_empty in Hf'.
  - rewrite lookup_insert_ne in Ht' by done. by apply (Hq t' f' fm').
Qed.

Lemma quiet_insert_frequency n t f fm :
  quiet n -> n !! t = Some fm -> quiet (<[t := <[f := ∅]> fm]> n).
Proof.
  intros Hq Ht t' f' fm' vm' Ht' Hf'.
  destruct (decide (t = t')) as [->|Hne].
  - rewrite lookup_insert_eq in Ht'. injection Ht' as <-.
    destruct (decide (f = f')) as [->|Hnf].
    + rewrite lookup_insert_eq in Hf'. by injection Hf' as <-.
    + rewrite lookup_insert_ne in Hf' by done. by apply (Hq t' f' fm).
  - rewrite lookup_insert_ne in Ht' by done. by apply (Hq t' f' fm').
Qed.

Lemma quiet_setitem3 st t f v fm vm (x : list pyval) :
  quiet (normals st) -> normals st !! t = Some fm ->
  f = "Daily" \/ f = "Monthly" ->
  quiet (normals (setitem3 st t f v fm vm x)).
Proof.
  intros Hq Ht Hf t' f' fm' vm' Ht' Hf' Hd Hm. simpl in Ht'.
  destruct (decide (t = t')) as [->|Hne].
  - rewrite lookup_insert_eq in Ht'. injection Ht' as <-.
    rewrite lookup_insert_ne in Hf' by (destruct Hf; congruence).
    by apply (Hq t' f' fm).
  - rewrite lookup_insert_ne in Ht' by done. by apply (Hq t' f' fm').
Qed.

Lemma getitem2_inv st t f (r : freqmap * varmap) :
  getitem2 st t f = Next r ->
  normals st !! t = Some r.1 /\ r.1 !! f = Some r.2.
Proof.
  unfold getitem2. destruct (normals st !! t) as [fm|]; [|done].
  destruct (fm !! f) as [vm|] eqn:Hf; [|done]. by intros [= <-].
Qed.

Lemma getitem2_raise st t f (e : exn) st' :
  getitem2 st t f = Raise e st' -> st' = st.
Proof.
  unfold getitem2. destruct (normals st !! t) as [fm|]; [|by intros [= _ <-]].
  destruct (fm !! f) as [vm|]; [done | by intros [= _ <-]].
Qed.

Lemma quiet_daily st t f line :
  f = "Daily" \/ f = "Monthly" ->
  quiet (normals st) -> quiet (normals (final (daily st t f line))).
Proof.
  intros Hf Hq. unfold daily, daily_variable.
  set (columns := Text.re_split_ws line). clearbody columns.
  assert (forall st1 cols, quiet (normals st1) ->
            quiet (normals (final (daily_month st1 t f cols)))) as Hmonth.
  { intros st1 cols Hq1. unfold daily_month.
    destruct (_ && _); [|done].
    destruct (_ || _); [done|].
    destruct (transform_data _ _) as [e|vals]; [done|]. simpl.
    destruct (getitem2 st1 t f) as [[fm vm]|e st2] eqn:Hg.
    - apply getitem2_inv in Hg as [Ht Hfm]. simpl in *.
      destruct (variable st1) as [v|]; [|done].
      destruct (vm !! v) as [arr|]; [|done].
      case_bool_decide; [|done]. by apply quiet_setitem3.
    - apply getitem2_raise in Hg as ->. done. }
  destruct (_ && _); [|by apply Hmonth].
  cbv zeta.
  destruct (getitem2 _ t f) as [[fm vm]|e st2] eqn:Hg.
  - apply getitem2_inv in Hg as [Ht Hfm]. simpl in *.
    destruct (vm !! hd "" columns); simpl; apply Hmonth; [done|].
    by apply quiet_setitem3.
  - apply getitem2_raise in Hg as ->. done.
Qed.

Lemma quiet_monthly st t f line :
  f = "Daily" \/ f = "Monthly" ->
  quiet (normals st) -> quiet (normals (final (monthly st t f line))).
Proof.
  intros Hf Hq. unfold monthly.
  case_bool_decide; [|done]. cbv zeta.
  destruct (transform_data _ _) as [e|vals]; [done|]. simpl.
  destruct (getitem2 _ t f) as [[fm vm]|e st2] eqn:Hg.
  - apply getitem2_inv in Hg as [Ht Hfm]. simpl in *.
    by apply quiet_setitem3.
  - apply getitem2_raise in Hg as ->. done.
Qed.

Lemma quiet_when_frequency name block t line st :
  name = "Daily" \/ name = "Monthly" ->
  (forall st1 f, f = "Daily" \/ f = "Monthly" -> quiet (normals st1) ->
     quiet (normals (final (block st1 t f line)))) ->
  quiet (normals st) ->
  quiet (normals (final (when_frequency name block t line st))).
Proof.
  intros Hname Hblock Hq. unfold when_frequency.
  destruct (frequency st) as [f|]; [|done].
  case_bool_decide as Hf; [|done]. subst f. by apply Hblock.
Qed.

Lemma quiet_body st line :
  quiet (normals st) -> quiet (normals (final (body st line))).
Proof.
  intros Hq. unfold body.
  destruct (Re.re_match Re.meta_re line) as [m|]; [done|].
  destruct (Re.re_match Re.type_re line) as [m|].
  { simpl. destruct (normals st !! _); [done|]. simpl.
    by apply quiet_insert_type. }
  destruct (Re.re_match Re.frequency_re line) as [m|].
  { simpl. destruct (type st) as [t|]; [|done].
    destruct (normals st !! t) as [fm|] eqn:Ht; [|done].
    destruct (fm !! _); [done|]. simpl. by apply quiet_insert_frequency. }
  destruct (type st) as [t|]; [|done].
  pose proof (quiet_when_frequency "Daily" daily t line st (or_introl eq_refl)
                (fun st1 f => quiet_daily st1 t f line) Hq) as Hd.
  destruct (when_frequency "Daily" daily t line st) as [st1|e st1]; [|done].
  simpl in *.
  apply (quiet_when_frequency "Monthly" monthly t line st1); [by right| |done].
  intros st2 f. apply quiet_monthly.
Qed.

Lemma quiet_loop (lines : list string) : forall st,
  quiet (normals st) -> quiet (normals (final (loop st lines))).
Proof.
  induction lines as [|x lines IH]; intros st Hq; [done|]. simpl.
  pose proof (quiet_body st (Text.strip x) Hq) as Hb.
  destruct (body st (Text.strip x)) as [st1|e st1]; [|done].
  simpl. by apply IH.
Qed.
End Quiet.

(** C10: under a frequency whose name is neither Daily nor Monthly every
    data row is passed over, leaving the state, its current variable
    included, as it was; and throughout a parse that starts from an empty
    object the variable map of such a frequency stays empty. *)
Theorem other_frequency_rows_ignored (f : string) :
  f <> "Daily" -> f <> "Monthly" ->
  (forall (st : state) (line : string),
     frequency st = Some f -> data_row line -> body st line = Next st)
  /\ (forall (lines : list string) (t : string) (fm : freqmap) (vm : varmap),
        normals (final (StationNormals lines)) !! t = Some fm ->
        fm !! f = Some vm -> vm = ∅).
Proof.
  intros Hd Hm. split.
  - intros st line Hfr Hrow. destruct (type st) as [t|] eqn:Hty.
    + apply (body_other st t); [done..| |]; rewrite Hfr; congruence.
    + destruct Hrow as (Hrm & Hrt & Hrf). unfold body.
      by rewrite Hrm, Hrt, Hrf, Hty.
  - intros lines t fm vm Ht Hf.
    assert (quiet (normals (final (StationNormals lines)))) as Hq.
    { apply quiet_loop. intros t' f' fm' vm' Ht'. unfold new in Ht'.
      simpl in Ht'. by rewrite lookup_empty in Ht'. }
    by apply (Hq t f fm vm).
Qed.

(** Daily rows under the frequency Hourly: nothing is stored. *)
Lemma other_frequency_rows_ignored_witness :
  body Sample.hourly_open Sample.jan_row = Next Sample.hourly_open
  /\ (∅ : varmap) = ∅.
Proof.
  assert ("Hourly" <> "Daily") as Hd by discriminate.
  assert ("Hourly" <> "Monthly") as Hm by discriminate.
  destruct (other_frequency_rows_ignored "Hourly" Hd Hm) as [Hrow Hmap].
  split.
  - apply (Hrow Sample.hourly_open).
    + reflexivity.
    + repeat split; vm_compute; reflexivity.
  - apply (Hmap ["Temperature-Related Normals"; "Hourly"; Sample.jan_row;
                 Sample.feb_row] Sample.T {["Hourly" := ∅]} ∅).
    + vm_compute. reflexivity.
    + vm_compute. reflexivity.
Defined.

(** ** Keys that come again *)

Lemma months_NoDup : NoDup months.
Proof. apply (bool_decide_unpack _). vm_compute. exact I. Qed.

(** C9 as stated fails for the row that opens a variable: when the variable
    is registered already, the row still fills the slot of its own month, so
    the values stored there before are replaced. *)
Lemma reopened_variable_slot_replaced :
  StationNormals ["Temperature-Related Normals"; "Daily"; Sample.jan_row]
  = Next Sample.daily_jan
  /\ lookup3 (normals Sample.daily_jan) Sample.T "Daily" Sample.tmax
     = Some (<[0%nat := PList (ints Sample.jan_values)]> Sample.empty_slots)
  /\ data_row Sample.jan_again
  /\ length (Text.re_split_ws Sample.jan_again) = 33%nat
  /\ hd "" (Text.re_split_ws Sample.jan_again) = Sample.tmax
  /\ nth 1 (Text.re_split_ws Sample.jan_again) "" ∈ months
  /\ exists st' : state,
       body Sample.daily_jan Sample.jan_again = Next st'
       /\ lookup3 (normals st') Sample.T "Daily" Sample.tmax
          = Some (<[0%nat := PList (ints Sample.jan_values')]> Sample.empty_slots)
       /\ lookup3 (normals st') Sample.T "Daily" Sample.tmax
          <> lookup3 (normals Sample.daily_jan) Sample.T "Daily" Sample.tmax.
Proof.
  split; [vm_compute; reflexivity|].
  split; [vm_compute; reflexivity|].
  split; [repeat split; vm_compute; reflexivity|].
  split; [vm_compute; reflexivity|].
  split; [vm_compute; reflexivity|].
  split; [apply (bool_decide_unpack _); vm_compute; exact I|].
  eexists. split; [vm_compute; reflexivity|].
  split; [vm_compute; reflexivity|].
  vm_compute. discriminate.
Qed.

(** C9, amended: a line that opens a type already in the tree, or a
    frequency already under the active type, leaves the tree as it is; a row
    that opens a daily variable already registered does not reset its array:
    only the slot of the row's own month is written, the other slots keep
    their values; and of two daily rows for the same month the later one
    replaces what the earlier one stored in that slot. *)
Theorem reencountered_keys_keep_their_data :
  (forall (st : state) (line : string) (m : list string),
     Re.re_match Re.meta_re line = None ->
     Re.re_match Re.type_re line = Some m ->
     is_Some (normals st !! Text.strip (Re.group m 1)) ->
     body st line = Next (set_type (Some (Text.strip (Re.group m 1))) st))
  /\ (forall (st : state) (line t : string) (m : list string) (fm : freqmap),
        Re.re_match Re.meta_re line = None ->
        Re.re_match Re.type_re line = None ->
        Re.re_match Re.frequency_re line = Some m ->
        type st = Some t -> normals st !! t = Some fm ->
        is_Some (fm !! Re.group m 1) ->
        body st line = Next (set_frequency (Some (Re.group m 1)) st))
  /\ (forall (st : state) (t line : string) (fm : freqmap) (vm : varmap)
             (arr : list pyval) (vals : list Z),
        type st = Some t -> frequency st = Some "Daily" ->
        normals st !! t = Some fm -> fm !! "Daily" = Some vm ->
        vm !! hd "" (Text.re_split_ws line) = Some arr ->
        length arr = 12%nat ->
        data_row line ->
        length (Text.re_split_ws line) = 33%nat ->
        nth 1 (Text.re_split_ws line) "" ∈ months ->
        transform_data t
          (trim_from_end (tl (tl (Text.re_split_ws line))) "-8888")
        = inr vals ->
        exists i : nat,
          months !! i = Some (nth 1 (Text.re_split_ws line) "")
          /\ body st line
             = Next (State (meta st)
                 (<[t := <["Daily" :=
                     <[hd "" (Text.re_split_ws line) :=
                         <[i := PList (ints vals)]> arr]> vm]> fm]>
                    (normals st))
                 (Some t) (Some "Daily")
                 (Some (hd "" (Text.re_split_ws line))))
          /\ forall j : nat, j <> i ->
               <[i := PList (ints vals)]> arr !! j = arr !! j)
  /\ (forall (st : state) (t v line1 line2 : string) (fm : freqmap)
             (vm : varmap) (arr : list pyval) (vals1 vals2 : list Z),
        type st = Some t -> frequency st = Some "Daily" ->
        variable st = Some v ->
        normals st !! t = Some fm -> fm !! "Daily" = Some vm ->
        vm !! v = Some arr -> length arr = 12%nat ->
        data_row line1 -> data_row line2 ->
        length (Text.re_split_ws line1) = 32%nat ->
        length (Text.re_split_ws line2) = 32%nat ->
        hd "" (Text.re_split_ws line1) ∈ months ->
        hd "" (Text.re_split_ws line2) = hd "" (Text.re_split_ws line1) ->
        transform_data t (trim_from_end (tl (Text.re_split_ws line1)) "-8888")
        = inr vals1 ->
        transform_data t (trim_from_end (tl (Text.re_split_ws line2)) "-8888")
        = inr vals2 ->
        exists (i : nat) (st1 st2 : state),
          months !! i = Some (hd "" (Text.re_split_ws line1))
          /\ body st line1 = Next st1
          /\ lookup3 (normals st1) t "Daily" v
             = Some (<[i := PList (ints vals1)]> arr)
          /\ body st1 line2 = Next st2
          /\ lookup3 (normals st2) t "Daily" v
             = Some (<[i := PList (ints vals2)]> arr)).
Proof.
  split; [|split; [|split]].
  - intros st line m Hm Ht [fm Hfm]. unfold body. rewrite Hm, Ht. simpl.
    by rewrite Hfm.
  - intros st line t m fm Hm Ht Hf Hty Hfm [vm Hvm]. unfold body.
    rewrite Hm, Ht, Hf. simpl. by rewrite Hty, Hfm, Hvm.
  - intros st t line fm vm arr vals Hty Hfr Ht Hf Hv Hlen12 Hrow Hlen Hmon Hvals.
    destruct (opening_row_effect st t fm vm line vals)
      as (i & Hlt & Hlook & Hbody); try done.
    { intros arr'. rewrite Hv. by intros [= <-]. }
    exists i. split; [done|]. rewrite Hbody, Hv. split; [done|].
    intros j Hj. by apply list_lookup_insert_ne.
  - intros st t v line1 line2 fm vm arr vals1 vals2 Hty Hfr Hv Ht Hf Harr
      Hlen12 Hrow1 Hrow2 Hlen1 Hlen2 Hmon Hsame Hvals1 Hvals2.
    destruct (continuation_row_effect st t v line1 fm vm arr vals1)
      as (i & Hlt & Hlook & Hbody1 & _); try done.
    set (arr1 := <[i := PList (ints vals1)]> arr) in *.
    set (vm1 := <[v := arr1]> vm) in *.
    set (fm1 := <["Daily" := vm1]> fm) in *.
    set (st1 := set_normals (<[t := fm1]> (normals st)) st) in *.
    destruct (continuation_row_effect st1 t v line2 fm1 vm1 arr1 vals2)
      as (i' & Hlt' & Hlook' & Hbody2 & _); try done.
    { subst st1. simpl. by rewrite lookup_insert_eq. }
    { subst fm1. by rewrite lookup_insert_eq. }
    { subst vm1. by rewrite lookup_insert_eq. }
    { subst arr1. by rewrite length_insert. }
    { by rewrite Hsame. }
    assert (i' = i) as ->.
    { rewrite Hsame in Hlook'.
      by apply (NoDup_lookup months i' i (hd "" (Text.re_split_ws line1))
                  months_NoDup). }
    exists i, st1. eexists. split; [done|]. split; [done|]. split.
    { subst st1 fm1 vm1. unfold lookup3. simpl.
      rewrite lookup_insert_eq. simpl. rewrite lookup_insert_eq. simpl.
      by rewrite lookup_insert_eq. }
    split; [exact Hbody2|].
    unfold lookup3. simpl.
    rewrite lookup_insert_eq. simpl. rewrite lookup_insert_eq. simpl.
    rewrite lookup_insert_eq. subst arr1. by rewrite list_insert_insert_eq.
Qed.

(** After the row that opened dly-tmax-normal: the two headers and the
    opening row come again, and FEB comes twice. *)
Lemma reencountered_keys_keep_their_data_witness :
  body Sample.daily_jan "Temperature-Related Normals"
  = Next (set_type (Some (Text.strip (Re.group ["Temperature-Related"] 1)))
            Sample.daily_jan)
  /\ body Sample.daily_jan "Daily"
     = Next (set_frequency (Some (Re.group ["Daily"] 1)) Sample.daily_jan)
  /\ (exists i : nat,
        months !! i = Some (nth 1 (Text.re_split_ws Sample.jan_again) "")
        /\ body Sample.daily_jan Sample.jan_again
           = Next (State (meta Sample.daily_jan)
               (<[Sample.T := <["Daily" :=
                   <[hd "" (Text.re_split_ws Sample.jan_again) :=
                       <[i := PList (ints Sample.jan_values')]>
                         (<[0%nat := PList (ints Sample.jan_values)]>
                            Sample.empty_slots)]>
                     {[Sample.tmax :=
                         <[0%nat := PList (ints Sample.jan_values)]>
                           Sample.empty_slots]}]>
                   {["Daily" :=
                       {[Sample.tmax :=
                           <[0%nat := PList (ints Sample.jan_values)]>
                             Sample.empty_slots]}]}]>
                  (normals Sample.daily_jan))
               (Some Sample.T) (Some "Daily")
               (Some (hd "" (Text.re_split_ws Sample.jan_again))))
        /\ forall j : nat, j <> i ->
             <[i := PList (ints Sample.jan_values')]>
               (<[0%nat := PList (ints Sample.jan_values)]> Sample.empty_slots)
               !! j
             = <[0%nat := PList (ints Sample.jan_values)]> Sample.empty_slots
               !! j)
  /\ (exists (i : nat) (st1 st2 : state),
        months !! i = Some (hd "" (Text.re_split_ws Sample.feb_row))
        /\ body Sample.daily_jan Sample.feb_row = Next st1
        /\ lookup3 (normals st1) Sample.T "Daily" Sample.tmax
           = Some (<[i := PList (ints Sample.feb_values)]>
                     (<[0%nat := PList (ints Sample.jan_values)]>
                        Sample.empty_slots))
        /\ body st1 Sample.feb_again = Next st2
        /\ lookup3 (normals st2) Sample.T "Daily" Sample.tmax
           = Some (<[i := PList (ints Sample.feb_values')]>
                     (<[0%nat := PList (ints Sample.jan_values)]>
                        Sample.empty_slots))).
Proof.
  destruct reencountered_keys_keep_their_data as (Hty & Hfr & Hvar & Hrow).
  split; [|split; [|split]].
  - apply Hty.
    + vm_compute. reflexivity.
    + vm_compute. reflexivity.
    + vm_compute. eexists. reflexivity.
  - apply (Hfr Sample.daily_jan "Daily" Sample.T ["Daily"]
             {["Daily" :=
                 {[Sample.tmax :=
                     <[0%nat := PList (ints Sample.jan_values)]>
                       Sample.empty_slots]}]}).
    + vm_compute. reflexivity.
    + vm_compute. reflexivity.
    + vm_compute. reflexivity.
    + reflexivity.
    + vm_compute. reflexivity.
    + vm_compute. eexists. reflexivity.
  - apply (Hvar Sample.daily_jan Sample.T Sample.jan_again);
      try (vm_compute; reflexivity).
    + repeat split; vm_compute; reflexivity.
    + apply (bool_decide_unpack _). vm_compute. exact I.
  - apply (Hrow Sample.daily_jan Sample.T Sample.tmax Sample.feb_row
             Sample.feb_again
             {["Daily" :=
                 {[Sample.tmax :=
                     <[0%nat := PList (ints Sample.jan_values)]>
                       Sample.empty_slots]}]}
             {[Sample.tmax :=
                 <[0%nat := PList (ints Sample.jan_values)]>
                   Sample.empty_slots]});
      try (vm_compute; reflexivity).
    + repeat split; vm_compute; reflexivity.
    + repeat split; vm_compute; reflexivity.
    + apply (bool_decide_unpack _). vm_compute. exact I.
Defined.

(** ** Daily arrays have twelve slots

    The arrays under Daily are made with twelve slots and only ever
    assigned to slot by slot, so the twelve slots that the properties of the
    daily rows ask for are there in every parse of a file. *)

Section Twelve.
Implicit Types (st : state) (t f v line : string) (n : tree).
Implicit Types (fm : freqmap) (vm : varmap).

Lemma twelve_slots_insert_type n t : twelve_slots n -> twelve_slots (<[t := ∅]> n).
Proof.
  intros Hn t' v' fm' vm' arr Ht' Hf'.
  destruct (decide (t = t')) as [->|Hne].
  - rewrite lookup_insert_eq in Ht'. injection Ht' as <-.
    by rewrite lookup_empty in Hf'.
  - rewrite lookup_insert_ne in Ht' by done. by apply (Hn t' v' fm' vm').
Qed.

Lemma twelve_slots_insert_frequency n t f fm :
  twelve_slots n -> n !! t = Some fm ->
  twelve_slots (<[t := <[f := ∅]> fm]> n).
Proof.
  intros Hn Ht t' v' fm' vm' arr Ht' Hf' Hv'.
  destruct (decide (t = t')) as [->|Hne].
  - rewrite lookup_insert_eq in Ht'. injection Ht' as <-.
    destruct (decide (f = "Daily")) as [->|Hnf].
    + rewrite lookup_insert_eq in Hf'. injection Hf' as <-.
      by rewrite lookup_empty in Hv'.
    + rewrite lookup_insert_ne in Hf' by done. by apply (Hn t' v' fm vm').
  - rewrite lookup_insert_ne in Ht' by done. by apply (Hn t' v' fm' vm').
Qed.

Lemma twelve_slots_setitem3 st t f v fm vm (x : list pyval) :
  twelve_slots (normals st) ->
  normals st !! t = Some fm -> fm !! f = Some vm ->
  (f = "Daily" -> length x = 12%nat) ->
  twelve_slots (normals (setitem3 st t f v fm vm x)).
Proof.
  intros Hn Ht Hf Hx t' v' fm' vm' arr Ht' Hf' Hv'. simpl in Ht'.
  destruct (decide (t = t')) as [->|Hne].
  - rewrite lookup_insert_eq in Ht'. injection Ht' as <-.
    destruct (decide (f = "Daily")) as [->|Hnf].
    + rewrite lookup_insert_eq in Hf'. injection Hf' as <-.
      destruct (decide (v = v')) as [->|Hnv].
      * rewrite lookup_insert_eq in Hv'. injection Hv' as <-. by apply Hx.
      * rewrite lookup_insert_ne in Hv' by done. by apply (Hn t' v' fm vm).
    + rewrite lookup_insert_ne in Hf' by done. by apply (Hn t' v' fm vm').
  - rewrite lookup_insert_ne in Ht' by done. by apply (Hn t' v' fm' vm').
Qed.

Lemma twelve_slots_daily st t line :
  twelve_slots (normals st) ->
  twelve_slots (normals (final (daily st t "Daily" line))).
Proof.
  intros Hn. unfold daily, daily_variable.
  set (columns := Text.re_split_ws line). clearbody columns.
  assert (forall st1 cols, twelve_slots (normals st1) ->
            twelve_slots (normals (final (daily_month st1 t "Daily" cols))))
    as Hmonth.
  { intros st1 cols Hn1. unfold daily_month.
    destruct (_ && _); [|done].
    destruct (_ || _); [done|].
    destruct (transform_data _ _) as [e|vals]; [done|]. simpl.
    destruct (getitem2 st1 t "Daily") as [[fm vm]|e st2] eqn:Hg.
    - apply getitem2_inv in Hg as [Ht Hfm]. simpl in *.
      destruct (variable st1) as [v|]; [|done].
      destruct (vm !! v) as [arr|] eqn:Hv; [|done].
      case_bool_decide; [|done].
      apply twelve_slots_setitem3; [done..|].
      intros _. rewrite length_insert. by apply (Hn1 t v fm vm).
    - apply getitem2_raise in Hg as ->. done. }
  destruct (_ && _); [|by apply Hmonth].
  cbv zeta.
  destruct (getitem2 _ t "Daily") as [[fm vm]|e st2] eqn:Hg.
  - apply getitem2_inv in Hg as [Ht Hfm]. simpl in *.
    destruct (vm !! hd "" columns); simpl; apply Hmonth; [done|].
    by apply twelve_slots_setitem3.
  - apply getitem2_raise in Hg as ->. done.
Qed.

Lemma twelve_slots_monthly st t line :
  twelve_slots (normals st) ->
  twelve_slots (normals (final (monthly st t "Monthly" line))).
Proof.
  intros Hn. unfold monthly.
  case_bool_decide; [|done]. cbv zeta.
  destruct (transform_data _ _) as [e|vals]; [done|]. simpl.
  destruct (getitem2 _ t "Monthly") as [[fm vm]|e st2] eqn:Hg.
  - apply getitem2_inv in Hg as [Ht Hfm]. simpl in *.
    by apply twelve_slots_setitem3.
  - apply getitem2_raise in Hg as ->. done.
Qed.

Lemma twelve_slots_body st line :
  twelve_slots (normals st) -> twelve_slots (normals (final (body st line))).
Proof.
  intros Hn. unfold body.
  destruct (Re.re_match Re.meta_re line) as [m|]; [done|].
  destruct (Re.re_match Re.type_re line) as [m|].
  { simpl. destruct (normals st !! _); [done|]. simpl.
    by apply twelve_slots_insert_type. }
  destruct (Re.re_match Re.frequency_re line) as [m|].
  { simpl. destruct (type st) as [t|]; [|done].
    destruct (normals st !! t) as [fm|] eqn:Ht; [|done].
    destruct (fm !! _); [done|]. simpl.
    by apply twelve_slots_insert_frequency. }
  destruct (type st) as [t|]; [|done].
  assert (twelve_slots
            (normals (final (when_frequency "Daily" daily t line st)))) as Hd.
  { unfold when_frequency. destruct (frequency st) as [f|]; [|done].
    case_bool_decide as Hf; [|done]. subst f. by apply twelve_slots_daily. }
  destruct (when_frequency "Daily" daily t line st) as [st1|e st1]; [|done].
  simpl in *. unfold when_frequency. destruct (frequency st1) as [f|]; [|done].
  case_bool_decide as Hf; [|done]. subst f. by apply twelve_slots_monthly.
Qed.

Lemma twelve_slots_loop (lines : list string) : forall st,
  twelve_slots (normals st) ->
  twelve_slots (normals (final (loop st lines))).
Proof.
  induction lines as [|x lines IH]; intros st Hn; [done|]. simpl.
  pose proof (twelve_slots_body st (Text.strip x) Hn) as Hb.
  destruct (body st (Text.strip x)) as [st1|e st1]; [|done].
  simpl. by apply IH.
Qed.

Lemma twelve_slots_StationNormals (lines : list string) :
  twelve_slots (normals (final (StationNormals lines))).
Proof.
  apply twelve_slots_loop. intros t v fm vm arr Ht. unfold new in Ht.
  simpl in Ht. by rewrite lookup_empty in Ht.
Qed.
End Twelve.

(** ** The check behind [month_index] cannot fire

    A row reaches [month_index] only after its first column was found in
    the table of months, and for those the index is between 0 and 11. *)

Section UnknownMonth.
Implicit Types (st : state) (t f line month : string) (e : exn).

Lemma value_error_not_unknown e (values : list string) t :
  transform_data t values = inl e -> not_unknown_month e.
Proof.
  intros [lit ->]%transform_data_error. intros month. done.
Qed.

Lemma key_error_not_unknown (k : option string) : not_unknown_month (KeyError k).
Proof. intros month. done. Qed.

Lemma getitem2_not_unknown st t f e st' :
  getitem2 st t f = Raise e st' -> not_unknown_month e.
Proof.
  unfold getitem2. destruct (normals st !! t) as [fm|].
  - destruct (fm !! f); [done|]. intros [= <- _]. apply key_error_not_unknown.
  - intros [= <- _]. apply key_error_not_unknown.
Qed.

Lemma daily_variable_not_unknown st t f (columns : list string) e st' :
  daily_variable st t f columns = Raise e st' -> not_unknown_month e.
Proof.
  unfold daily_variable. destruct (_ && _); [|done]. cbv zeta.
  destruct (getitem2 _ t f) as [[fm vm]|e1 st1] eqn:Hg; simpl.
  - by destruct (vm !! _).
  - intros [= <- _]. by apply (getitem2_not_unknown _ _ _ _ _ Hg).
Qed.

Lemma daily_month_not_unknown st t f (columns : list string) e st' :
  daily_month st t f columns = Raise e st' -> not_unknown_month e.
Proof.
  unfold daily_month, is_month. intros Hr.
  destruct (bool_decide (length columns = 32%nat)); [|done].
  case_bool_decide as Hm; [|done]. simpl in Hr.
  destruct (month_index_spec _ Hm) as (i & Hi & Hlt & _). rewrite Hi in Hr.
  replace ((Z.of_nat i <? 0) || (Z.of_nat i >=? 12))%Z with false in Hr.
  2:{ symmetry. rewrite Z.geb_leb. apply orb_false_iff.
      split; [apply Z.ltb_ge | apply Z.leb_gt]; lia. }
  destruct (transform_data _ _) as [e1|vals] eqn:E.
  { simpl in Hr. injection Hr as <- _. by apply (value_error_not_unknown _ _ _ E). }
  simpl in Hr.
  destruct (getitem2 st t f) as [[fm vm]|e1 st1] eqn:Hg; simpl in Hr.
  2:{ injection Hr as <- _. by apply (getitem2_not_unknown _ _ _ _ _ Hg). }
  destruct (variable st) as [v|].
  2:{ injection Hr as <- _. apply key_error_not_unknown. }
  destruct (vm !! v) as [arr|].
  2:{ injection Hr as <- _. apply key_error_not_unknown. }
  case_bool_decide; [done|]. injection Hr as <- _. intros month. done.
Qed.

Lemma daily_not_unknown st t f line e st' :
  daily st t f line = Raise e st' -> not_unknown_month e.
Proof.
  unfold daily.
  destruct (daily_variable st t f _) as [[st1 columns]|e1 st1] eqn:Hv; simpl.
  - apply daily_month_not_unknown.
  - intros [= <- _]. by apply (daily_variable_not_unknown _ _ _ _ _ _ Hv).
Qed.

Lemma monthly_not_unknown st t f line e st' :
  monthly st t f line = Raise e st' -> not_unknown_month e.
Proof.
  unfold monthly. case_bool_decide; [|done]. cbv zeta.
  destruct (transform_data _ _) as [e1|vals] eqn:E; simpl.
  { intros [= <- _]. by apply (value_error_not_unknown _ _ _ E). }
  destruct (getitem2 _ t f) as [[fm vm]|e1 st1] eqn:Hg; simpl; [done|].
  intros [= <- _]. by apply (getitem2_not_unknown _ _ _ _ _ Hg).
Qed.

Lemma when_frequency_not_unknown name block t line st e st' :
  (forall st1 f e1 st2,
     block st1 t f line = Raise e1 st2 -> not_unknown_month e1) ->
  when_frequency name block t line st = Raise e st' -> not_unknown_month e.
Proof.
  intros Hblock. unfold when_frequency.
  destruct (frequency st) as [f|]; [|done].
  case_bool_decide; [|done]. apply Hblock.
Qed.

(** No line makes the loop body raise the exception for an unknown
    month. *)
Lemma unknown_month_never_raised st line e st' :
  body st line = Raise e st' -> not_unknown_month e.
Proof.
  unfold body.
  destruct (Re.re_match Re.meta_re line) as [m|]; [done|].
  destruct (Re.re_match Re.type_re line) as [m|].
  { simpl. by destruct (normals st !! _). }
  destruct (Re.re_match Re.frequency_re line) as [m|].
  { simpl. destruct (type st) as [t|].
    - destruct (normals st !! t) as [fm|].
      + by destruct (fm !! _).
      + intros [= <- _]. apply key_error_not_unknown.
    - intros [= <- _]. intros month. done. }
  destruct (type st) as [t|]; [|done].
  destruct (when_frequency "Daily" daily t line st) as [st1|e1 st1] eqn:Hd;
    simpl.
  - apply when_frequency_not_unknown. intros st2 f e2 st3. apply monthly_not_unknown.
  - intros [= <- _].
    apply (when_frequency_not_unknown _ _ _ _ _ _ _
             (fun st2 f e2 st3 => daily_not_unknown st2 t f line e2 st3) Hd).
Qed.
End UnknownMonth.

(** * Further properties of the helpers *)

(** ** [trim_from_end], for any value *)

Lemma trim_from_end_app_run (value : string) (r : list string) (n : nat) :
  last r <> Some value ->
  trim_from_end (r ++ replicate n value) value = r.
Proof.
  intros Hr. induction n as [|n IH].
  - simpl. rewrite app_nil_r. by apply trim_from_end_id.
  - replace (r ++ replicate (S n) value)
      with ((r ++ replicate n value) ++ [value]).
    2:{ rewrite <- app_assoc. f_equal.
        change [value] with (replicate 1 value).
        rewrite <- replicate_add. f_equal. lia. }
    unfold trim_from_end. rewrite length_app. simpl length.
    rewrite Nat.add_1_r. simpl trim_loop.
    rewrite bool_decide_eq_true_2 by (rewrite length_app; simpl; lia).
    rewrite bool_decide_eq_true_2 by apply last_snoc.
    simpl. rewrite removelast_last. exact IH.
Qed.

(** X1: for any list and any value, trimming a second time changes nothing,
    the result is never longer than the list, and a list that does not end
    in the value is returned as it is. *)
Theorem trim_from_end_once_is_enough (array : list string) (value : string) :
  trim_from_end (trim_from_end array value) value = trim_from_end array value
  /\ (length (trim_from_end array value) <= length array)%nat
  /\ (last array <> Some value -> trim_from_end array value = array).
Proof.
  split; [apply trim_from_end_idempotent|].
  split; [apply trim_from_end_length | apply trim_from_end_id].
Qed.

Lemma trim_from_end_once_is_enough_witness :
  trim_from_end (trim_from_end ["1"; "x"; "2"; "x"] "x") "x"
  = trim_from_end ["1"; "x"; "2"; "x"] "x"
  /\ (length (trim_from_end ["1"; "x"; "2"; "x"] "x") <= 4)%nat
  /\ (last ["1"; "x"; "2"; "x"] <> Some "x" ->
      trim_from_end ["1"; "x"; "2"; "x"] "x" = ["1"; "x"; "2"; "x"]).
Proof. apply (trim_from_end_once_is_enough ["1"; "x"; "2"; "x"] "x"). Defined.

(** X2: values appended to the end of a list are trimmed away with the rest
    of its trailing run: trimming the list with any number of copies of the
    value added gives what trimming the list gives; a list that holds nothing
    but the value is trimmed to the empty list. *)
Theorem trim_from_end_absorbs_run (array : list string) (value : string)
    (k : nat) :
  trim_from_end (array ++ replicate k value) value = trim_from_end array value
  /\ trim_from_end (replicate k value) value = [].
Proof.
  assert (forall l : list string,
            trim_from_end (l ++ replicate k value) value
            = trim_from_end l value) as Happ.
  { intros l.
    destruct (trim_loop_spec value (length l) l) as (j & Hj & Hstop); [done|].
    fold (trim_from_end l value) in Hj, Hstop.
    rewrite Hj at 1. rewrite <- app_assoc, <- replicate_add.
    by apply trim_from_end_app_run. }
  split; [apply Happ|]. apply (Happ []).
Qed.

(** ** [month_index] *)

Lemma month_index_from_absent (ms : list string) (month : string) : forall k : Z,
  month ∉ ms -> month_index_from k ms month = (-1)%Z.
Proof.
  induction ms as [|m ms IH]; intros k Hm; [done|]. simpl.
  apply not_elem_of_cons in Hm as [Hne Hm].
  rewrite bool_decide_eq_false_2 by congruence. by apply IH.
Qed.

(** X3: [month_index] returns -1 exactly for the strings that are not in
    the table of months, and for a string of the table its position there,
    from 0 for JAN to 11 for DEC. *)
Theorem month_index_position (month : string) :
  (month_index month = (-1)%Z <-> month ∉ months)
  /\ (forall i : nat,
        month_index month = Z.of_nat i <-> months !! i = Some month)
  /\ (-1 <= month_index month < 12)%Z.
Proof.
  destruct (decide (month ∈ months)) as [Hin|Hout].
  - destruct (month_index_spec month Hin) as (i & Hi & Hlt & Hlook).
    split; [|split].
    + split; [lia | done].
    + intros j. rewrite Hi. split.
      * intros Hj. by replace j with i by lia.
      * intros Hj. f_equal.
        by apply (NoDup_lookup months i j month months_NoDup).
    + lia.
  - pose proof (month_index_from_absent months month 0 Hout) as Hidx.
    fold (month_index month) in Hidx. split; [|split].
    + done.
    + intros j. rewrite Hidx. split; [lia|].
      intros Hj. destruct Hout. by apply (list_elem_of_lookup_2 _ j).
    + lia.
Qed.

(** ** [transform_data] *)

Lemma transform_data_inr (t : string) (values : list string) : forall zs : list Z,
  transform_data t values = inr zs
  <-> Forall2 (fun val z => transform_value val = inr z) values zs.
Proof.
  induction values as [|val values IH]; intros zs; simpl.
  - split; [intros [= <-]; constructor | by intros ->%Forall2_nil_inv_l].
  - destruct (transform_value val) as [e|z] eqn:Hval.
    + split; [done|]. intros (z & zs' & Hz & _ & _)%Forall2_cons_inv_l.
      congruence.
    + destruct (transform_data t values) as [e|zs'] eqn:Hrest.
      * split; [done|]. intros (z' & zs' & _ & Hzs & _)%Forall2_cons_inv_l.
        by apply IH in Hzs.
      * split.
        -- intros [= <-]. constructor; [done|]. by apply IH.
        -- intros (z' & zs'' & Hz & Hzs & ->)%Forall2_cons_inv_l.
           apply IH in Hzs. congruence.
Qed.

Lemma transform_data_inl (t : string) (values : list string) : forall e : exn,
  transform_data t values = inl e
  <-> exists (pre : list string) (val : string) (post : list string)
             (zs : list Z),
        values = pre ++ val :: post
        /\ Forall2 (fun val z => transform_value val = inr z) pre zs
        /\ transform_value val = inl e.
Proof.
  induction values as [|val values IH]; intros e; simpl.
  - split; [done|]. intros (pre & v & post & zs & Hv & _). by destruct pre.
  - destruct (transform_value val) as [e1|z] eqn:Hval.
    + split.
      * intros [= <-]. exists [], val, values, []. repeat split; [constructor|done].
      * intros (pre & v & post & zs & Hv & Hpre & He).
        destruct pre as [|p pre]; simpl in Hv; injection Hv as -> ->.
        -- congruence.
        -- apply Forall2_cons_inv_l in Hpre as (z & zs' & Hz & _ & _).
           congruence.
    + destruct (transform_data t values) as [e1|zs'] eqn:Hrest.
      * split.
        -- intros [= <-].
           destruct (proj1 (IH e1) eq_refl) as (pre & v & post & zs & -> & Hpre & He).
           exists (val :: pre), v, post, (z :: zs).
           repeat split; [by constructor | done].
        -- intros (pre & v & post & zs & Hv & Hpre & He).
           destruct pre as [|p pre]; simpl in Hv; injection Hv as -> ->.
           ++ congruence.
           ++ apply Forall2_cons_inv_l in Hpre as (z' & zs' & _ & Hpre & _).
              f_equal. symmetry.
              assert (inl e1 = inl e :> exn + list Z) as [= ->]; [|done].
              apply IH. by exists pre, v, post, zs'.
      * split; [done|].
        intros (pre & v & post & zs & Hv & Hpre & He).
        destruct pre as [|p pre]; simpl in Hv; injection Hv as -> ->.
        -- congruence.
        -- apply Forall2_cons_inv_l in Hpre as (z' & zs'' & _ & Hpre & _).
           assert (inr zs' = inl e :> exn + list Z) as [=].
           apply IH. by exists pre, v, post, zs''.
Qed.

(** X4: [transform_data] returns the integers of all its values, in order,
    exactly when each value converts, and otherwise raises the error of the
    first value that does not; its first argument plays no part. *)
Theorem transform_data_all_or_first_error (t : string) (values : list string) :
  (forall zs : list Z,
     transform_data t values = inr zs
     <-> Forall2 (fun val z => transform_value val = inr z) values zs)
  /\ (forall e : exn,
        transform_data t values = inl e
        <-> exists (pre : list string) (val : string) (post : list string)
                   (zs : list Z),
              values = pre ++ val :: post
              /\ Forall2 (fun val z => transform_value val = inr z) pre zs
              /\ transform_value val = inl e)
  /\ (forall t' : string, transform_data t' values = transform_data t values).
Proof.
  split; [apply transform_data_inr|]. split; [apply transform_data_inl|].
  intros t'. induction values as [|val values IH]; [done|].
  simpl. by rewrite IH.
Qed.

(** * Further properties of the loop *)

(** ** Lines and rows that are passed over *)

Section Ignored.
Import Text.
Implicit Types (st : state) (t f line x : string).

Lemma lstrip_all_space (l : list ascii) :
  Forall (fun c => is_space c = true) l -> lstrip l = [].
Proof. induction 1 as [|c l Hc _ IH]; [done|]. simpl. by rewrite Hc. Qed.

Lemma strip_all_space x :
  Forall (fun c => is_space c = true) (chars x) -> strip x = "".
Proof.
  intros Hx. unfold strip, strip_chars. by rewrite (lstrip_all_space _ Hx).
Qed.

Lemma body_empty_line st : body st "" = Next st.
Proof.
  unfold body.
  change (Re.re_match Re.meta_re "") with (@None (list string)).
  change (Re.re_match Re.type_re "") with (@None (list string)).
  change (Re.re_match Re.frequency_re "") with (@None (list string)).
  cbv iota. destruct (type st) as [t|]; [|done].
  assert (forall name block,
            (forall f, block st t f "" = Next st) ->
            when_frequency name block t "" st = Next st) as Hwhen.
  { intros name block Hblock. unfold when_frequency.
    destruct (frequency st) as [f|]; [|done]. by case_bool_decide. }
  rewrite Hwhen; [|done]. simpl. by apply Hwhen.
Qed.
End Ignored.

(** X5: a line that holds nothing but white space (the empty line too) is
    passed over in every state, so such lines can be taken out of a file
    anywhere without changing what the loop returns or raises. *)
Theorem blank_lines_ignored (st : state) (pre post : list string) (x : string) :
  Forall (fun c => Text.is_space c = true) (Text.chars x) ->
  loop st (pre ++ x :: post) = loop st (pre ++ post).
Proof.
  intros Hx. rewrite !loop_app.
  destruct (loop st pre) as [st1|e st1]; [|done]. simpl.
  by rewrite (strip_all_space x Hx), body_empty_line.
Qed.

Lemma blank_lines_ignored_witness :
  loop Sample.daily_jan ([Sample.feb_row] ++ "   " :: [Sample.feb_again])
  = loop Sample.daily_jan ([Sample.feb_row] ++ [Sample.feb_again]).
Proof.
  apply (blank_lines_ignored Sample.daily_jan [Sample.feb_row]
           [Sample.feb_again] "   ").
  repeat constructor.
Defined.

(** X6: a data row is passed over, leaving the state as it was, when no
    type or no frequency is active, when under Daily it has neither 33
    columns with a month in second place nor 32 columns with a month in
    first place, and when under Monthly it does not have 13 columns. *)
Theorem unrecognised_rows_ignored (st : state) (line : string) :
  data_row line ->
  type st = None
  \/ frequency st = None
  \/ (frequency st = Some "Daily"
      /\ ~ (length (Text.re_split_ws line) = 33%nat
            /\ nth 1 (Text.re_split_ws line) "" ∈ months)
      /\ ~ (length (Text.re_split_ws line) = 32%nat
            /\ hd "" (Text.re_split_ws line) ∈ months))
  \/ (frequency st = Some "Monthly"
      /\ length (Text.re_split_ws line) <> 13%nat) ->
  body st line = Next st.
Proof.
  intros Hrow Hcase. destruct (type st) as [t|] eqn:Hty.
  2:{ destruct Hrow as (Hm & Ht & Hf). unfold body.
      by rewrite Hm, Ht, Hf, Hty. }
  destruct Hcase as [?|[Hfr|[(Hfr & H33 & H32)|(Hfr & H13)]]]; [done|..].
  - apply (body_other st t); [done..| |]; by rewrite Hfr.
  - rewrite (body_daily st t line) by done. unfold daily, daily_variable.
    unfold is_month.
    replace (bool_decide (length (Text.re_split_ws line) = 33%nat)
             && bool_decide (nth 1 (Text.re_split_ws line) "" ∈ months))
      with false.
    2:{ symmetry. apply andb_false_iff.
        destruct (decide (length (Text.re_split_ws line) = 33%nat)) as [E|E].
        - right. apply bool_decide_eq_false_2. intros Hin. by apply H33.
        - left. by apply bool_decide_eq_false_2. }
    simpl. unfold daily_month, is_month.
    replace (bool_decide (length (Text.re_split_ws line) = 32%nat)
             && bool_decide (hd "" (Text.re_split_ws line) ∈ months))
      with false.
    2:{ symmetry. apply andb_false_iff.
        destruct (decide (length (Text.re_split_ws line) = 32%nat)) as [E|E].
        - right. apply bool_decide_eq_false_2. intros Hin. by apply H32.
        - left. by apply bool_decide_eq_false_2. }
    simpl. by rewrite when_frequency_ne by (rewrite Hfr; done).
  - rewrite (body_monthly st t line) by done. unfold monthly.
    by rewrite (bool_decide_eq_false_2 _ H13).
Qed.

(** A FEB row under Monthly: 32 columns, not 13. *)
Lemma unrecognised_rows_ignored_witness :
  body Sample.monthly_open Sample.feb_row = Next Sample.monthly_open.
Proof.
  apply (unrecognised_rows_ignored Sample.monthly_open Sample.feb_row).
  - repeat split; vm_compute; reflexivity.
  - right. right. right. split; [reflexivity|]. vm_compute. discriminate.
Defined.

(** ** Rows that raise *)

(** A monthly row under a type that lacks the dict of Monthly. *)
Lemma stale_monthly_row_effect (st : state) (t line : string)
    (fm : freqmap) (vals : list Z) :
  type st = Some t -> frequency st = Some "Monthly" ->
  normals st !! t = Some fm -> fm !! "Monthly" = None ->
  data_row line ->
  length (Text.re_split_ws line) = 13%nat ->
  transform_data t (trim_from_end (tl (Text.re_split_ws line)) "-8888")
  = inr vals ->
  body st line
  = Raise (KeyError (Some "Monthly"))
      (set_variable (Some (hd "" (Text.re_split_ws line))) st).
Proof.
  intros Hty Hfr Ht Hf Hrow Hlen Hvals.
  rewrite (body_monthly st t line) by done. unfold monthly.
  rewrite (bool_decide_eq_true_2 _ Hlen). cbv zeta. rewrite Hvals. simpl.
  unfold getitem2. simpl. by rewrite Ht, Hf.
Qed.

(** X7: when the active type has no dict for the frequency Monthly (the
    type changed and no frequency line followed), a monthly row of 13 columns
    whose values convert raises KeyError for the key Monthly; at the raise
    the metadata and the tree are as they were, and the row's first column
    is the current variable. *)
Theorem monthly_row_under_stale_frequency_raises (st : state) (t line : string)
    (fm : freqmap) (vals : list Z) :
  type st = Some t -> frequency st = Some "Monthly" ->
  normals st !! t = Some fm -> fm !! "Monthly" = None ->
  data_row line ->
  length (Text.re_split_ws line) = 13%nat ->
  transform_data t (trim_from_end (tl (Text.re_split_ws line)) "-8888")
  = inr vals ->
  exists st' : state,
    body st line = Raise (KeyError (Some "Monthly")) st'
    /\ st' = State (meta st) (normals st) (Some t) (Some "Monthly")
               (Some (hd "" (Text.re_split_ws line)))
    /\ variable st' = Some (hd "" (Text.re_split_ws line)).
Proof.
  intros Hty Hfr Ht Hf Hrow Hlen Hvals. eexists.
  split; [by apply (stale_monthly_row_effect st t line fm vals)|].
  unfold set_variable. by rewrite Hty, Hfr.
Qed.

Lemma monthly_row_under_stale_frequency_raises_witness :
  exists st' : state,
    body Sample.stale_monthly Sample.mly_row
    = Raise (KeyError (Some "Monthly")) st'
    /\ st' = State (meta Sample.stale_monthly) (normals Sample.stale_monthly)
               (Some Sample.T) (Some "Monthly")
               (Some (hd "" (Text.re_split_ws Sample.mly_row)))
    /\ variable st' = Some (hd "" (Text.re_split_ws Sample.mly_row)).
Proof.
  apply (monthly_row_under_stale_frequency_raises Sample.stale_monthly
           Sample.T Sample.mly_row ∅ Sample.mly_values);
    try (vm_compute; reflexivity).
  repeat split; vm_compute; reflexivity.
Defined.

(** X8: when the active type has no dict for the frequency Daily, a daily
    row of 33 columns with a month in second place raises KeyError for the
    key Daily before any of its values is converted (so even when they would
    not convert); at the raise the metadata and the tree are as they were,
    and the row's first column is the current variable. *)
Theorem opening_row_under_stale_frequency_raises (st : state) (t line : string)
    (fm : freqmap) :
  type st = Some t -> frequency st = Some "Daily" ->
  normals st !! t = Some fm -> fm !! "Daily" = None ->
  data_row line ->
  length (Text.re_split_ws line) = 33%nat ->
  nth 1 (Text.re_split_ws line) "" ∈ months ->
  exists st' : state,
    body st line = Raise (KeyError (Some "Daily")) st'
    /\ st' = State (meta st) (normals st) (Some t) (Some "Daily")
               (Some (hd "" (Text.re_split_ws line)))
    /\ variable st' = Some (hd "" (Text.re_split_ws line)).
Proof.
  intros Hty Hfr Ht Hf Hrow Hlen Hm. eexists. split.
  - rewrite (body_daily st t line) by done. unfold daily, daily_variable.
    unfold is_month.
    rewrite (bool_decide_eq_true_2 _ Hlen), (bool_decide_eq_true_2 _ Hm).
    simpl. unfold getitem2. simpl. rewrite Ht, Hf. reflexivity.
  - unfold set_variable. by rewrite Hty, Hfr.
Qed.

Lemma opening_row_under_stale_frequency_raises_witness :
  exists st' : state,
    body Sample.stale_daily Sample.jan_row
    = Raise (KeyError (Some "Daily")) st'
    /\ st' = State (meta Sample.stale_daily) (normals Sample.stale_daily)
               (Some Sample.T) (Some "Daily")
               (Some (hd "" (Text.re_split_ws Sample.jan_row)))
    /\ variable st' = Some (hd "" (Text.re_split_ws Sample.jan_row)).
Proof.
  apply (opening_row_under_stale_frequency_raises Sample.stale_daily
           Sample.T Sample.jan_row ∅);
    try (vm_compute; reflexivity).
  - repeat split; vm_compute; reflexivity.
  - apply (bool_decide_unpack _). vm_compute. exact I.
Defined.

(** X9: a row that opens a new daily variable and holds a value that does
    not convert raises ValueError only after the variable was registered:
    at the raise the tree holds the new variable with its twelve empty slots
    and none of the row's values. *)
Theorem opening_row_bad_value_leaves_variable (st : state) (t line : string)
    (fm : freqmap) (vm : varmap) (e : exn) :
  type st = Some t -> frequency st = Some "Daily" ->
  normals st !! t = Some fm -> fm !! "Daily" = Some vm ->
  vm !! hd "" (Text.re_split_ws line) = None ->
  data_row line ->
  length (Text.re_split_ws line) = 33%nat ->
  nth 1 (Text.re_split_ws line) "" ∈ months ->
  transform_data t (trim_from_end (tl (tl (Text.re_split_ws line))) "-8888")
  = inl e ->
  body st line
  = Raise e
      (State (meta st)
         (<[t := <["Daily" :=
             <[hd "" (Text.re_split_ws line) := replicate 12 (PList [])]>
               vm]> fm]> (normals st))
         (Some t) (Some "Daily") (Some (hd "" (Text.re_split_ws line))))
  /\ exists literal : string, e = ValueError literal.
Proof.
  intros Hty Hfr Ht Hf Hnew Hrow Hlen Hm Hvals.
  split; [|by apply (transform_data_error _ _ _ Hvals)].
  rewrite (body_daily st t line) by done. unfold daily.
  destruct (Text.re_split_ws line) as [|v [|month rest]]; [done..|].
  simpl in *. injection Hlen as Hlen.
  rewrite (daily_variable_opens st t "Daily" v month rest fm vm) by done.
  rewrite Hnew.
  remember (setitem3 (set_variable (Some v) st) t "Daily" v fm vm
              (replicate 12 (PList []))) as st1 eqn:Hst1.
  simpl.
  destruct (daily_month_assignment st1 t "Daily" month rest Hlen Hm)
    as (i & _ & _ & ->).
  rewrite Hvals. simpl. subst st1.
  unfold setitem3, set_normals, set_variable. simpl.
  by rewrite Hty, Hfr.
Qed.

(** The opening row with a value that is no integer. *)
Lemma opening_row_bad_value_leaves_variable_witness :
  body Sample.daily_open Sample.jan_bad
  = Raise (ValueError "n/a")
      (State (meta Sample.daily_open)
         (<[Sample.T := <["Daily" :=
             <[hd "" (Text.re_split_ws Sample.jan_bad) :=
                 replicate 12 (PList [])]> ∅]> {["Daily" := ∅]}]>
            (normals Sample.daily_open))
         (Some Sample.T) (Some "Daily")
         (Some (hd "" (Text.re_split_ws Sample.jan_bad))))
  /\ exists literal : string, ValueError "n/a" = ValueError literal.
Proof.
  apply (opening_row_bad_value_leaves_variable Sample.daily_open Sample.T
           Sample.jan_bad);
    try (vm_compute; reflexivity).
  - repeat split; vm_compute; reflexivity.
  - apply (bool_decide_unpack _). vm_compute. exact I.
Defined.

(** ** Monthly rows that come again *)

(** X10: of two monthly rows for the same variable the later one replaces
    the whole list the earlier one stored, whatever their lengths after
    trimming: the state after both rows is the state after the later row
    alone. *)
Theorem later_monthly_row_replaces (st : state) (t line1 line2 : string)
    (fm : freqmap) (vm : varmap) (vals1 vals2 : list Z) :
  type st = Some t -> frequency st = Some "Monthly" ->
  normals st !! t = Some fm -> fm !! "Monthly" = Some vm ->
  data_row line1 -> data_row line2 ->
  length (Text.re_split_ws line1) = 13%nat ->
  length (Text.re_split_ws line2) = 13%nat ->
  hd "" (Text.re_split_ws line2) = hd "" (Text.re_split_ws line1) ->
  transform_data t (trim_from_end (tl (Text.re_split_ws line1)) "-8888")
  = inr vals1 ->
  transform_data t (trim_from_end (tl (Text.re_split_ws line2)) "-8888")
  = inr vals2 ->
  exists st1 st2 : state,
    body st line1 = Next st1
    /\ body st1 line2 = Next st2
    /\ body st line2 = Next st2
    /\ lookup3 (normals st2) t "Monthly" (hd "" (Text.re_split_ws line1))
       = Some (ints vals2).
Proof.
  intros Hty Hfr Ht Hf Hrow1 Hrow2 Hlen1 Hlen2 Hsame Hvals1 Hvals2.
  pose proof (monthly_row_effect st t line1 fm vm vals1 Hty Hfr Ht Hf Hrow1
                Hlen1 Hvals1) as H1.
  pose proof (monthly_row_effect st t line2 fm vm vals2 Hty Hfr Ht Hf Hrow2
                Hlen2 Hvals2) as H2.
  eexists. eexists. split; [exact H1|].
  rewrite (monthly_row_effect _ t line2
             (<["Monthly" :=
                  <[hd "" (Text.re_split_ws line1) := ints vals1]> vm]> fm)
             (<[hd "" (Text.re_split_ws line1) := ints vals1]> vm) vals2);
    try done; simpl.
  2:{ by rewrite lookup_insert_eq. }
  2:{ by rewrite lookup_insert_eq. }
  rewrite Hsame, !insert_insert_eq. split; [done|].
  rewrite H2, Hsame. split; [done|].
  unfold lookup3. simpl. rewrite lookup_insert_eq. simpl.
  rewrite lookup_insert_eq. simpl. by rewrite lookup_insert_eq.
Qed.

(** The monthly row with sentinels first, then a full row under its name. *)
Lemma later_monthly_row_replaces_witness :
  exists st1 st2 : state,
    body Sample.monthly_open Sample.mly_short = Next st1
    /\ body st1 Sample.mly_short_again = Next st2
    /\ body Sample.monthly_open Sample.mly_short_again = Next st2
    /\ lookup3 (normals st2) Sample.T "Monthly"
         (hd "" (Text.re_split_ws Sample.mly_short))
       = Some (ints Sample.mly_values).
Proof.
  apply (later_monthly_row_replaces Sample.monthly_open Sample.T
           Sample.mly_short Sample.mly_short_again {["Monthly" := ∅]} ∅
           Sample.mly_short_values Sample.mly_values);
    try (vm_compute; reflexivity).
  - repeat split; vm_compute; reflexivity.
  - repeat split; vm_compute; reflexivity.
Defined.

(** ** What the statements of the body leave alone *)

Section Frame.
Implicit Types (st : state) (t f v line : string) (n : tree).
Implicit Types (fm : freqmap) (vm : varmap) (columns : list string).

Lemma daily_variable_next st t f columns st1 (columns1 : list string) :
  daily_variable st t f columns = Next (st1, columns1) ->
  meta st1 = meta st /\ type st1 = type st /\ frequency st1 = frequency st
  /\ (st1 = st
      \/ exists fm vm,
           normals st !! t = Some fm /\ fm !! f = Some vm
           /\ (st1 = set_variable (Some (hd "" columns)) st
               \/ (vm !! hd "" columns = None
                   /\ st1 = setitem3 (set_variable (Some (hd "" columns)) st)
                              t f (hd "" columns) fm vm
                              (replicate 12 (PList []))))).
Proof.
  unfold daily_variable. destruct (_ && _).
  - cbv zeta.
    destruct (getitem2 _ t f) as [[fm vm]|e st2] eqn:Hg; simpl; [|done].
    apply getitem2_inv in Hg as [Ht Hf]. simpl in Ht, Hf.
    destruct (vm !! hd "" columns) eqn:Hnew; intros [= <- <-]; simpl;
      repeat split; right; exists fm, vm; eauto.
  - intros [= <- <-]. eauto.
Qed.

Lemma daily_month_next st t f columns st1 :
  daily_month st t f columns = Next st1 ->
  st1 = st
  \/ exists fm vm v arr (vals : list Z) (i : nat),
       normals st !! t = Some fm /\ fm !! f = Some vm
       /\ variable st = Some v /\ vm !! v = Some arr
       /\ (i < length arr)%nat /\ (length vals <= 31)%nat
       /\ st1 = setitem3 st t f v fm vm (<[i := PList (ints vals)]> arr).
Proof.
  unfold daily_month.
  destruct (bool_decide (length columns = 32%nat)) eqn:Hlen; simpl;
    [|intros [= <-]; by left].
  apply bool_decide_eq_true in Hlen.
  destruct (is_month _); [|intros [= <-]; by left].
  destruct (_ || _); [done|].
  destruct (transform_data _ _) as [e|vals] eqn:Hvals; [done|]. simpl.
  destruct (getitem2 st t f) as [[fm vm]|e st2] eqn:Hg; simpl; [|done].
  apply getitem2_inv in Hg as [Ht Hf]. simpl in Ht, Hf.
  destruct (variable st) as [v|]; [|done].
  destruct (vm !! v) as [arr|] eqn:Hv; [|done].
  case_bool_decide as Hi; [|done]. intros [= <-]. right.
  exists fm, vm, v, arr, vals, (Z.to_nat (month_index (hd "" columns))).
  repeat split; try done.
  apply transform_data_length in Hvals. rewrite Hvals.
  etransitivity; [apply trim_from_end_length|].
  destruct columns; simpl in *; lia.
Qed.

Lemma monthly_next st t f line st1 :
  monthly st t f line = Next st1 ->
  st1 = st
  \/ exists fm vm (vals : list Z),
       normals st !! t = Some fm /\ fm !! f = Some vm
       /\ (length vals <= 12)%nat
       /\ st1 = setitem3 (set_variable (Some (hd "" (Text.re_split_ws line))) st)
                  t f (hd "" (Text.re_split_ws line)) fm vm (ints vals).
Proof.
  unfold monthly. case_bool_decide as Hlen; [|intros [= <-]; by left].
  cbv zeta.
  destruct (transform_data _ _) as [e|vals] eqn:Hvals; [done|]. simpl.
  destruct (getitem2 _ t f) as [[fm vm]|e st2] eqn:Hg; simpl; [|done].
  apply getitem2_inv in Hg as [Ht Hf]. simpl in Ht, Hf.
  intros [= <-]. right. exists fm, vm, vals. repeat split; try done.
  apply transform_data_length in Hvals. rewrite Hvals.
  etransitivity; [apply trim_from_end_length|].
  destruct (Text.re_split_ws line); simpl in *; lia.
Qed.

(** At a raise the tree is the one the statement started from, but for the
    variable a daily row may have registered before. *)
Lemma daily_month_raise st t f columns (e : exn) st1 :
  daily_month st t f columns = Raise e st1 -> st1 = st.
Proof.
  unfold daily_month. destruct (_ && _); [|done].
  destruct (_ || _); [by intros [= _ <-]|].
  destruct (transform_data _ _) as [e1|vals]; [by intros [= _ <-]|]. simpl.
  destruct (getitem2 st t f) as [[fm vm]|e1 st2] eqn:Hg; simpl.
  - destruct (variable st) as [v|]; [|by intros [= _ <-]].
    destruct (vm !! v) as [arr|]; [|by intros [= _ <-]].
    case_bool_decide; [done | by intros [= _ <-]].
  - apply getitem2_raise in Hg as ->. by intros [= _ <-].
Qed.

Lemma daily_variable_raise st t f columns (e : exn) st1 :
  daily_variable st t f columns = Raise e st1 ->
  st1 = set_variable (Some (hd "" columns)) st.
Proof.
  unfold daily_variable. destruct (_ && _); [|done]. cbv zeta.
  destruct (getitem2 _ t f) as [[fm vm]|e1 st2] eqn:Hg; simpl.
  - by destruct (vm !! _).
  - apply getitem2_raise in Hg as ->. by intros [= _ <-].
Qed.

Lemma monthly_raise st t f line (e : exn) st1 :
  monthly st t f line = Raise e st1 ->
  st1 = set_variable (Some (hd "" (Text.re_split_ws line))) st.
Proof.
  unfold monthly. case_bool_decide; [|done]. cbv zeta.
  destruct (transform_data _ _) as [e1|vals]; [by intros [= _ <-]|]. simpl.
  destruct (getitem2 _ t f) as [[fm vm]|e1 st2] eqn:Hg; simpl; [done|].
  apply getitem2_raise in Hg as ->. by intros [= _ <-].
Qed.
End Frame.

(** ** The tree changes by five assignments only *)

Section Steps.
Implicit Types (st : state) (t f v line : string) (n : tree).
Implicit Types (fm : freqmap) (vm : varmap) (columns : list string).

Lemma daily_tree_steps st t line :
  rtc tree_step (normals st) (normals (final (daily st t "Daily" line))).
Proof.
  unfold daily.
  destruct (daily_variable st t "Daily" _) as [[st1 columns1]|e st1] eqn:Hv.
  2:{ apply daily_variable_raise in Hv as ->. simpl. done. }
  simpl.
  assert (rtc tree_step (normals st) (normals st1)) as H1.
  { apply daily_variable_next in Hv as (_ & _ & _ & [->|Hv]); [done|].
    destruct Hv as (fm & vm & Ht & Hf & [->|[Hnew ->]]); [done|].
    simpl. apply rtc_once. by apply step_variable. }
  etransitivity; [exact H1|].
  destruct (daily_month st1 t "Daily" columns1) as [st2|e st2] eqn:Hm.
  - apply daily_month_next in Hm as [->|Hm]; [done|].
    destruct Hm as (fm & vm & v & arr & vals & i & Ht & Hf & _ & Harr & Hi
                    & Hlen & ->).
    simpl. apply rtc_once. by apply (step_month _ t v fm vm arr).
  - apply daily_month_raise in Hm as ->. done.
Qed.

Lemma monthly_tree_steps st t line :
  rtc tree_step (normals st) (normals (final (monthly st t "Monthly" line))).
Proof.
  destruct (monthly st t "Monthly" line) as [st1|e st1] eqn:Hm.
  - apply monthly_next in Hm as [->|Hm]; [done|].
    destruct Hm as (fm & vm & vals & Ht & Hf & Hlen & ->).
    simpl. apply rtc_once. by apply step_monthly.
  - apply monthly_raise in Hm as ->. done.
Qed.

Lemma body_tree_steps st line :
  rtc tree_step (normals st) (normals (final (body st line))).
Proof.
  unfold body.
  destruct (Re.re_match Re.meta_re line) as [m|]; [done|].
  destruct (Re.re_match Re.type_re line) as [m|].
  { simpl. destruct (normals st !! _) eqn:Ht; [done|]. simpl.
    apply rtc_once. by apply step_type. }
  destruct (Re.re_match Re.frequency_re line) as [m|].
  { simpl. destruct (type st) as [t|]; [|done].
    destruct (normals st !! t) as [fm|] eqn:Ht; [|done].
    destruct (fm !! _) eqn:Hf; [done|]. simpl.
    apply rtc_once. by apply step_frequency. }
  destruct (type st) as [t|]; [|done].
  assert (rtc tree_step (normals st)
            (normals (final (when_frequency "Daily" daily t line st)))) as Hd.
  { unfold when_frequency. destruct (frequency st) as [f|]; [|done].
    case_bool_decide as Hf; [|done]. subst f. apply daily_tree_steps. }
  destruct (when_frequency "Daily" daily t line st) as [st1|e st1]; [|done].
  simpl in *. etransitivity; [exact Hd|].
  unfold when_frequency. destruct (frequency st1) as [f|]; [|done].
  case_bool_decide as Hf; [|done]. subst f. apply monthly_tree_steps.
Qed.

Lemma loop_tree_steps (lines : list string) : forall st,
  rtc tree_step (normals st) (normals (final (loop st lines))).
Proof.
  induction lines as [|x lines IH]; intros st; [done|]. simpl.
  pose proof (body_tree_steps st (Text.strip x)) as Hb.
  destruct (body st (Text.strip x)) as [st1|e st1]; [|done].
  simpl in *. etransitivity; [exact Hb | apply IH].
Qed.

Lemma keeps_keys_refl n : keeps_keys n n.
Proof.
  intros t fm Ht. exists fm. split; [done|].
  intros f vm Hf. exists vm. by split.
Qed.

Lemma keeps_keys_trans n1 n2 n3 :
  keeps_keys n1 n2 -> keeps_keys n2 n3 -> keeps_keys n1 n3.
Proof.
  intros H12 H23 t fm1 Ht1.
  destruct (H12 t fm1 Ht1) as (fm2 & Ht2 & Hf12).
  destruct (H23 t fm2 Ht2) as (fm3 & Ht3 & Hf23).
  exists fm3. split; [done|]. intros f vm1 Hf1.
  destruct (Hf12 f vm1 Hf1) as (vm2 & Hf2 & Hv12).
  destruct (Hf23 f vm2 Hf2) as (vm3 & Hf3 & Hv23).
  exists vm3. split; [done|]. intros v Hv. by apply Hv23, Hv12.
Qed.

(** Storing [x] under the three keys, the upper two present already. *)
Lemma keeps_keys_store n t f v fm vm (x : list pyval) :
  n !! t = Some fm -> fm !! f = Some vm ->
  keeps_keys n (<[t := <[f := <[v := x]> vm]> fm]> n).
Proof.
  intros Ht Hf t' fm' Ht'. destruct (decide (t = t')) as [->|Hnt].
  - rewrite lookup_insert_eq. eexists. split; [done|].
    assert (fm' = fm) as -> by congruence.
    intros f' vm' Hf'. destruct (decide (f = f')) as [->|Hnf].
    + rewrite lookup_insert_eq. eexists. split; [done|].
      assert (vm' = vm) as -> by congruence.
      intros v'. destruct (decide (v = v')) as [->|Hnv].
      * by rewrite lookup_insert_eq.
      * by rewrite lookup_insert_ne.
    + rewrite lookup_insert_ne by done. exists vm'. by split.
  - rewrite lookup_insert_ne by done. exists fm'. split; [done|].
    intros f' vm' Hf'. exists vm'. by split.
Qed.

Lemma tree_step_keeps_keys n n' : tree_step n n' -> keeps_keys n n'.
Proof.
  destruct 1 as [n t Ht|n t f fm Ht Hf|n t v fm vm Ht Hf Hv
                 |n t v fm vm arr i vals Ht Hf Hv Hi Hlen
                 |n t v fm vm vals Ht Hf Hlen].
  - intros t' fm' Ht'. exists fm'. split.
    + rewrite lookup_insert_ne; [done | congruence].
    + intros f vm Hf. exists vm. by split.
  - intros t' fm' Ht'. destruct (decide (t = t')) as [->|Hnt].
    + rewrite lookup_insert_eq. eexists. split; [done|].
      assert (fm' = fm) as -> by congruence.
      intros f' vm Hf'. exists vm. split; [|done].
      rewrite lookup_insert_ne; [done | congruence].
    + rewrite lookup_insert_ne by done. exists fm'. split; [done|].
      intros f' vm Hf'. exists vm. by split.
  - by apply keeps_keys_store.
  - by apply keeps_keys_store.
  - by apply keeps_keys_store.
Qed.

Lemma tree_step_shaped n n' : tree_step n n' -> shaped n -> shaped n'.
Proof.
  assert (forall n t f v fm vm (x : list pyval),
            shaped n -> n !! t = Some fm -> fm !! f = Some vm ->
            ((f = "Daily" /\ length x = 12%nat /\ Forall month_slot x)
             \/ (f = "Monthly"
                 /\ exists zs : list Z, x = ints zs /\ (length zs <= 12)%nat)) ->
            shaped (<[t := <[f := <[v := x]> vm]> fm]> n)) as Hstore.
  { intros n0 t f v fm vm x Hn Ht Hf Hx t' f' v' fm' vm' arr Ht' Hf' Hv'.
    destruct (decide (t = t')) as [->|Hnt].
    2:{ rewrite lookup_insert_ne in Ht' by done. by apply (Hn t' f' v' fm' vm'). }
    rewrite lookup_insert_eq in Ht'. injection Ht' as <-.
    destruct (decide (f = f')) as [->|Hnf].
    2:{ rewrite lookup_insert_ne in Hf' by done. by apply (Hn t' f' v' fm vm'). }
    rewrite lookup_insert_eq in Hf'. injection Hf' as <-.
    destruct (decide (v = v')) as [->|Hnv].
    2:{ rewrite lookup_insert_ne in Hv' by done. by apply (Hn t' f' v' fm vm). }
    rewrite lookup_insert_eq in Hv'. by injection Hv' as <-. }
  destruct 1 as [n t Ht|n t f fm Ht Hf|n t v fm vm Ht Hf Hv
                 |n t v fm vm arr i vals Ht Hf Hv Hi Hlen
                 |n t v fm vm vals Ht Hf Hlen]; intros Hn.
  - intros t' f' v' fm' vm' arr Ht' Hf'.
    destruct (decide (t = t')) as [->|Hnt].
    + rewrite lookup_insert_eq in Ht'. injection Ht' as <-.
      by rewrite lookup_empty in Hf'.
    + rewrite lookup_insert_ne in Ht' by done. by apply (Hn t' f' v' fm' vm').
  - intros t' f' v' fm' vm' arr Ht' Hf' Hv'.
    destruct (decide (t = t')) as [->|Hnt].
    2:{ rewrite lookup_insert_ne in Ht' by done. by apply (Hn t' f' v' fm' vm'). }
    rewrite lookup_insert_eq in Ht'. injection Ht' as <-.
    destruct (decide (f = f')) as [->|Hnf].
    + rewrite lookup_insert_eq in Hf'. injection Hf' as <-.
      by rewrite lookup_empty in Hv'.
    + rewrite lookup_insert_ne in Hf' by done. by apply (Hn t' f' v' fm vm').
  - apply Hstore; [done..|]. left. split; [done|]. split; [done|].
    apply Forall_replicate. exists []. split; [done | simpl; lia].
  - apply Hstore; [done..|]. left. split; [done|].
    destruct (Hn t "Daily" v fm vm arr Ht Hf Hv)
      as [(_ & Hlen12 & Hslots)|(Hbad & _)]; [|done].
    split; [by rewrite length_insert|].
    apply Forall_insert; [done|]. by exists vals.
  - apply Hstore; [done..|]. right. split; [done|]. by exists vals.
Qed.
End Steps.

(** X11: the tree only grows: whatever lines the loop reads, and whether it
    returns or raises, every type of the tree it started from is still
    there, with every frequency under it and every variable under that. *)
Theorem loop_keeps_keys (st : state) (lines : list string) :
  keeps_keys (normals st) (normals (final (loop st lines))).
Proof.
  induction (loop_tree_steps lines st) as [n|n1 n2 n3 Hstep _ IH].
  - apply keeps_keys_refl.
  - by apply (keeps_keys_trans _ n2); [apply tree_step_keeps_keys|].
Qed.

(** X12: in every parse of a file into a new object the tree has the layout
    the class documents, whether the parse returns or raises: variables
    exist under the frequencies Daily and Monthly only, a daily variable is
    twelve slots that are each a list of at most 31 integers, and a monthly
    variable is a list of at most 12 integers. *)
Theorem StationNormals_shaped (lines : list string) :
  shaped (normals (final (StationNormals lines))).
Proof.
  assert (forall n n', rtc tree_step n n' -> shaped n -> shaped n') as Hrtc.
  { induction 1 as [|n1 n2 n3 Hstep _ IH]; [done|].
    intros Hn. by apply IH, (tree_step_shaped n1). }
  apply (Hrtc _ _ (loop_tree_steps lines (start new))).
  intros t f v fm vm arr Ht. unfold new in Ht. simpl in Ht.
  by rewrite lookup_empty in Ht.
Qed.


(** ** The exceptions of a parse *)

Section Errors.
Implicit Types (st : state) (t f v line : string) (e : exn).
Implicit Types (fm : freqmap) (vm : varmap) (columns : list string).

Lemma key_error_parse_error (k : option string) : parse_error (KeyError k).
Proof. right. left. by exists k. Qed.

Lemma value_error_parse_error t (values : list string) e :
  transform_data t values = inl e -> parse_error e.
Proof. intros H%transform_data_error. by right; right. Qed.

Lemma getitem2_parse_error st t f e st' :
  getitem2 st t f = Raise e st' -> parse_error e.
Proof.
  unfold getitem2. destruct (normals st !! t) as [fm|].
  - destruct (fm !! f); [done|]. intros [= <- _]. apply key_error_parse_error.
  - intros [= <- _]. apply key_error_parse_error.
Qed.

Lemma daily_variable_parse_error st t f columns e st' :
  daily_variable st t f columns = Raise e st' -> parse_error e.
Proof.
  unfold daily_variable. destruct (_ && _); [|done]. cbv zeta.
  destruct (getitem2 _ t f) as [[fm vm]|e1 st1] eqn:Hg; simpl.
  - by destruct (vm !! _).
  - intros [= <- _]. by apply (getitem2_parse_error _ _ _ _ _ Hg).
Qed.

Lemma daily_month_parse_error st t columns e st' :
  twelve_slots (normals st) ->
  daily_month st t "Daily" columns = Raise e st' -> parse_error e.
Proof.
  unfold daily_month, is_month. intros Hn Hr.
  destruct (bool_decide (length columns = 32%nat)); [|done].
  case_bool_decide as Hm; [|done]. simpl in Hr.
  destruct (month_index_spec _ Hm) as (i & Hi & Hlt & _). rewrite Hi in Hr.
  replace ((Z.of_nat i <? 0) || (Z.of_nat i >=? 12))%Z with false in Hr.
  2:{ symmetry. rewrite Z.geb_leb. apply orb_false_iff.
      split; [apply Z.ltb_ge | apply Z.leb_gt]; lia. }
  destruct (transform_data _ _) as [e1|vals] eqn:E.
  { simpl in Hr. injection Hr as <- _.
    by apply (value_error_parse_error _ _ _ E). }
  simpl in Hr.
  destruct (getitem2 st t "Daily") as [[fm vm]|e1 st1] eqn:Hg; simpl in Hr.
  2:{ injection Hr as <- _. by apply (getitem2_parse_error _ _ _ _ _ Hg). }
  apply getitem2_inv in Hg as [Ht Hf]. simpl in Ht, Hf.
  destruct (variable st) as [v|].
  2:{ injection Hr as <- _. apply key_error_parse_error. }
  destruct (vm !! v) as [arr|] eqn:Hv.
  2:{ injection Hr as <- _. apply key_error_parse_error. }
  rewrite Nat2Z.id in Hr.
  rewrite bool_decide_eq_true_2 in Hr; [done|].
  rewrite (Hn t v fm vm arr Ht Hf Hv). exact Hlt.
Qed.

Lemma daily_parse_error st t line e st' :
  twelve_slots (normals st) ->
  daily st t "Daily" line = Raise e st' -> parse_error e.
Proof.
  intros Hn. unfold daily.
  destruct (daily_variable st t "Daily" _) as [[st1 columns1]|e1 st1] eqn:Hv;
    simpl.
  - apply daily_month_parse_error.
    apply daily_variable_next in Hv as (_ & _ & _ & [->|Hv]); [done|].
    destruct Hv as (fm & vm & Ht & Hf & [->|[Hnew ->]]); [done|].
    by apply twelve_slots_setitem3.
  - intros [= <- _]. by apply (daily_variable_parse_error _ _ _ _ _ _ Hv).
Qed.

Lemma monthly_parse_error st t f line e st' :
  monthly st t f line = Raise e st' -> parse_error e.
Proof.
  unfold monthly. case_bool_decide; [|done]. cbv zeta.
  destruct (transform_data _ _) as [e1|vals] eqn:E; simpl.
  { intros [= <- _]. by apply (value_error_parse_error _ _ _ E). }
  destruct (getitem2 _ t f) as [[fm vm]|e1 st1] eqn:Hg; simpl; [done|].
  intros [= <- _]. by apply (getitem2_parse_error _ _ _ _ _ Hg).
Qed.

Lemma body_parse_error st line e st' :
  twelve_slots (normals st) ->
  body st line = Raise e st' -> parse_error e.
Proof.
  intros Hn. unfold body.
  destruct (Re.re_match Re.meta_re line) as [m|]; [done|].
  destruct (Re.re_match Re.type_re line) as [m|].
  { simpl. by destruct (normals st !! _). }
  destruct (Re.re_match Re.frequency_re line) as [m|].
  { simpl. destruct (type st) as [t|].
    - destruct (normals st !! t) as [fm|].
      + by destruct (fm !! _).
      + intros [= <- _]. apply key_error_parse_error.
    - intros [= <- _]. left. by eexists. }
  destruct (type st) as [t|]; [|done].
  destruct (when_frequency "Daily" daily t line st) as [st1|e1 st1] eqn:Hd;
    simpl.
  - unfold when_frequency. destruct (frequency st1) as [f|]; [|done].
    case_bool_decide; [|done]. apply monthly_parse_error.
  - intros [= <- _]. unfold when_frequency in Hd.
    destruct (frequency st) as [f|]; [|done].
    case_bool_decide as Hf; [|done]. subst f.
    by apply (daily_parse_error _ _ _ _ _ Hn Hd).
Qed.

Lemma loop_parse_error (lines : list string) : forall st e st',
  twelve_slots (normals st) ->
  loop st lines = Raise e st' -> parse_error e.
Proof.
  induction lines as [|x lines IH]; intros st e st' Hn; [done|]. simpl.
  pose proof (twelve_slots_body st (Text.strip x) Hn) as Hn1.
  destruct (body st (Text.strip x)) as [st1|e1 st1] eqn:Hb; simpl.
  - by apply IH.
  - intros [= <- _]. by apply (body_parse_error _ _ _ _ Hn Hb).
Qed.
End Errors.

(** X13: a parse of a file into a new object can end in three exceptions
    only: the one for a frequency outside any type, KeyError and ValueError.
    It never raises IndexError, and never the exception for an unknown
    month. *)
Theorem StationNormals_raises_only (lines : list string) (e : exn)
    (st : state) :
  StationNormals lines = Raise e st ->
  parse_error e
  /\ e <> IndexError
  /\ forall month : string, e <> Exception ("unknown month: " +:+ month).
Proof.
  intros Hr.
  assert (parse_error e) as He.
  { apply (loop_parse_error lines (start new) e st); [|exact Hr].
    intros t v fm vm arr Ht. unfold new in Ht. simpl in Ht.
    by rewrite lookup_empty in Ht. }
  split; [exact He|].
  destruct He as [[f ->]|[[k ->]|[s ->]]]; split; done.
Qed.

(** A FEB row right after the headers of a daily block: KeyError. *)
Lemma StationNormals_raises_only_witness :
  parse_error (KeyError None)
  /\ KeyError None <> IndexError
  /\ forall month : string,
       KeyError None <> Exception ("unknown month: " +:+ month).
Proof.
  apply (StationNormals_raises_only
           ["Temperature-Related Normals"; "Daily"; Sample.feb_row]
           (KeyError None) Sample.daily_open).
  vm_compute. reflexivity.
Defined.

(** ** The locals and the tree *)

Section Coherent.
Implicit Types (st : state) (t f v line : string).

Lemma body_data_locals st line st' :
  data_row line -> body st line = Next st' ->
  type st' = type st /\ frequency st' = frequency st
  /\ (variable st' = variable st \/ is_Some (frequency st)).
Proof.
  intros (Hm & Ht & Hf). unfold body. rewrite Hm, Ht, Hf.
  destruct (type st) as [t|] eqn:Hty.
  2:{ intros [= <-]. split; [done|]. split; [done | by left]. }
  assert (forall name block st1 st3,
            (forall f st2, block st1 t f line = Next st2 ->
               type st2 = type st1 /\ frequency st2 = frequency st1) ->
            when_frequency name block t line st1 = Next st3 ->
            type st3 = type st1 /\ frequency st3 = frequency st1
            /\ (variable st3 = variable st1 \/ is_Some (frequency st1)))
    as Hwhen.
  { intros name block st1 st3 Hblock. unfold when_frequency.
    destruct (frequency st1) as [f1|] eqn:Hfr1.
    2:{ intros [= <-]. split; [done|]. split; [done | by left]. }
    case_bool_decide.
    2:{ intros [= <-]. split; [done|]. split; [done | by left]. }
    intros [Hty2 Hfr2]%Hblock. split; [done|]. split; [congruence|].
    by right. }
  assert (forall st1 f st2, monthly st1 t f line = Next st2 ->
            type st2 = type st1 /\ frequency st2 = frequency st1) as Hmonthly.
  { intros st1 f st2 [->|Hn]%monthly_next; [done|].
    by destruct Hn as (fm & vm & vals & _ & _ & _ & ->). }
  assert (forall st1 f st2, daily st1 t f line = Next st2 ->
            type st2 = type st1 /\ frequency st2 = frequency st1) as Hdaily.
  { intros st1 f st2. unfold daily.
    destruct (daily_variable st1 t f _) as [[st3 columns3]|e st3] eqn:Hv;
      [|done].
    apply daily_variable_next in Hv as (_ & Hty3 & Hfr3 & _). simpl.
    intros [->|Hdm]%daily_month_next; [done|].
    destruct Hdm as (fm & vm & v & arr & vals & i & _ & _ & _ & _ & _ & _ & ->).
    done. }
  destruct (when_frequency "Daily" daily t line st) as [st1|e st1] eqn:Hd;
    [|done].
  simpl. intros Hlast.
  destruct (Hwhen "Daily" daily st st1 (Hdaily st) Hd) as (Hty1 & Hfr1 & Hv1).
  destruct (Hwhen "Monthly" monthly st1 st' (Hmonthly st1) Hlast)
    as (Hty2 & Hfr2 & Hv2).
  rewrite <- Hty. split; [congruence|]. split; [congruence|].
  destruct Hv1 as [Hv1|Hv1]; [|by right].
  destruct Hv2 as [Hv2|Hv2]; [left; congruence|].
  right. by rewrite <- Hfr1.
Qed.

Lemma body_coherent st line st' :
  coherent st -> body st line = Next st' -> coherent st'.
Proof.
  intros (Hc1 & Hc2 & Hc3) Hb.
  destruct (Re.re_match Re.meta_re line) as [m|] eqn:Hm.
  { unfold body in Hb. rewrite Hm in Hb. by injection Hb as <-. }
  destruct (Re.re_match Re.type_re line) as [m|] eqn:Ht.
  { unfold body in Hb. rewrite Hm, Ht in Hb. simpl in Hb.
    destruct (normals st !! _) eqn:Hlook; injection Hb as <-;
      (split; [|split]); simpl; try done.
    - intros t [= <-]. by rewrite Hlook.
    - intros t [= <-]. by rewrite lookup_insert_eq. }
  destruct (Re.re_match Re.frequency_re line) as [m|] eqn:Hf.
  { unfold body in Hb. rewrite Hm, Ht, Hf in Hb. simpl in Hb.
    destruct (type st) as [t|] eqn:Hty; [|done].
    destruct (normals st !! t) as [fm|] eqn:Hlook; [|done].
    destruct (fm !! _); injection Hb as <-;
      (split; [|split]); simpl; rewrite ?Hty; try done.
    intros t' [= <-]. by rewrite lookup_insert_eq. }
  destruct (body_data_locals st line st' (conj Hm (conj Ht Hf)) Hb)
    as (Hty & Hfr & Hvar).
  pose proof (body_tree_steps st line) as Hsteps. rewrite Hb in Hsteps.
  simpl in Hsteps.
  assert (keeps_keys (normals st) (normals st')) as Hkeys.
  { clear -Hsteps. induction Hsteps as [n|n1 n2 n3 Hstep _ IH].
    - apply keeps_keys_refl.
    - by apply (keeps_keys_trans _ n2); [apply tree_step_keeps_keys|]. }
  split; [|split].
  - intros t Ht'. rewrite Hty in Ht'. destruct (Hc1 t Ht') as [fm Hfm].
    destruct (Hkeys t fm Hfm) as (fm' & -> & _). done.
  - rewrite Hty, Hfr. exact Hc2.
  - rewrite Hfr. destruct Hvar as [->|Hsome]; [exact Hc3 | done].
Qed.

Lemma loop_coherent (lines : list string) : forall st st',
  coherent st -> loop st lines = Next st' -> coherent st'.
Proof.
  induction lines as [|x lines IH]; intros st st' Hc; simpl.
  - by intros [= <-].
  - destruct (body st (Text.strip x)) as [st1|e st1] eqn:Hb; [|done]. simpl.
    apply IH. by apply (body_coherent st (Text.strip x)).
Qed.
End Coherent.

(** X14: when [loadfromfile] returns, whatever object it was called on, its
    locals fit the tree: the active type, if any, is a key of the tree; a
    frequency is active only if a type is; and a variable is current only if
    a frequency is active. *)
Theorem loadfromfile_coherent (self : state) (lines : list string)
    (st : state) :
  loadfromfile self lines = Next st -> coherent st.
Proof.
  apply loop_coherent. split; [|split]; simpl; by intros [? ?] || done.
Qed.

Lemma loadfromfile_coherent_witness : coherent Sample.daily_jan.
Proof.
  apply (loadfromfile_coherent new
           ["Temperature-Related Normals"; "Daily"; Sample.jan_row]).
  vm_compute. reflexivity.
Defined.

(** ** Metadata and the tree do not meet *)

Section Meta.
Implicit Types (st : state) (t f v line x : string) (m : gmap string string).

Lemma getitem2_set_meta m st t f :
  getitem2 (set_meta m st) t f
  = match getitem2 st t f with
    | Next r => Next r
    | Raise e st1 => Raise e (set_meta m st1)
    end.
Proof.
  unfold getitem2. simpl. destruct (normals st !! t) as [fm|]; [|done].
  by destruct (fm !! f).
Qed.

Lemma daily_variable_set_meta m st t f (columns : list string) :
  daily_variable (set_meta m st) t f columns
  = match daily_variable st t f columns with
    | Next (st1, columns1) => Next (set_meta m st1, columns1)
    | Raise e st1 => Raise e (set_meta m st1)
    end.
Proof.
  unfold daily_variable. destruct (_ && _); [|done]. cbv zeta.
  change (set_variable (Some (hd "" columns)) (set_meta m st))
    with (set_meta m (set_variable (Some (hd "" columns)) st)).
  rewrite getitem2_set_meta.
  destruct (getitem2 _ t f) as [[fm vm]|e st1]; [|done]. simpl.
  by destruct (vm !! _).
Qed.

Lemma daily_month_set_meta m st t f (columns : list string) :
  daily_month (set_meta m st) t f columns
  = with_meta m (daily_month st t f columns).
Proof.
  unfold daily_month. destruct (_ && _); [|done].
  destruct (_ || _); [done|].
  destruct (transform_data _ _) as [e|vals]; [done|]. simpl.
  rewrite getitem2_set_meta.
  destruct (getitem2 st t f) as [[fm vm]|e st1]; [|done]. simpl.
  destruct (variable st) as [v|]; [|done].
  destruct (vm !! v) as [arr|]; [|done].
  by case_bool_decide.
Qed.

Lemma daily_set_meta m st t f line :
  daily (set_meta m st) t f line = with_meta m (daily st t f line).
Proof.
  unfold daily. rewrite daily_variable_set_meta.
  destruct (daily_variable st t f _) as [[st1 columns1]|e st1]; [|done].
  simpl. apply daily_month_set_meta.
Qed.

Lemma monthly_set_meta m st t f line :
  monthly (set_meta m st) t f line = with_meta m (monthly st t f line).
Proof.
  unfold monthly. case_bool_decide; [|done]. cbv zeta.
  destruct (transform_data _ _) as [e|vals]; [done|]. simpl.
  change (set_variable ?v (set_meta m st))
    with (set_meta m (set_variable v st)).
  rewrite getitem2_set_meta.
  by destruct (getitem2 _ t f) as [[fm vm]|e st1].
Qed.

Lemma when_frequency_set_meta m name block t line st :
  (forall st1 f,
     block (set_meta m st1) t f line = with_meta m (block st1 t f line)) ->
  when_frequency name block t line (set_meta m st)
  = with_meta m (when_frequency name block t line st).
Proof.
  intros Hblock. unfold when_frequency. simpl.
  destruct (frequency st) as [f|]; [|done]. by case_bool_decide.
Qed.

(** A line that is no metadata line does not look at the metadata. *)
Lemma body_set_meta m st line :
  Re.re_match Re.meta_re line = None ->
  body (set_meta m st) line = with_meta m (body st line).
Proof.
  intros Hm. unfold body. rewrite Hm.
  destruct (Re.re_match Re.type_re line) as [mt|].
  { simpl. by destruct (normals st !! _). }
  destruct (Re.re_match Re.frequency_re line) as [mf|].
  { simpl. destruct (type st) as [t|]; [|done].
    destruct (normals st !! t) as [fm|]; [|done]. by destruct (fm !! _). }
  simpl. destruct (type st) as [t|]; [|done].
  rewrite (when_frequency_set_meta m "Daily" daily)
    by (intros; apply daily_set_meta).
  destruct (when_frequency "Daily" daily t line st) as [st1|e st1]; [|done].
  simpl. apply when_frequency_set_meta. intros. apply monthly_set_meta.
Qed.

Lemma set_meta_id st : set_meta (meta st) st = st.
Proof. by destruct st. Qed.

Lemma body_keeps_meta st line :
  Re.re_match Re.meta_re line = None ->
  meta (final (body st line)) = meta st.
Proof.
  intros Hm. pose proof (body_set_meta (meta st) st line Hm) as H.
  rewrite set_meta_id in H. rewrite H. by destruct (body st line).
Qed.

Lemma loop_set_meta m (lines : list string) : forall st,
  Forall (fun x => meta_line x = false) lines ->
  loop (set_meta m st) lines = with_meta m (loop st lines).
Proof.
  induction lines as [|x lines IH]; intros st Hall; [done|].
  inversion_clear Hall as [|? ? Hx Hrest]. simpl.
  unfold meta_line in Hx.
  destruct (Re.re_match Re.meta_re (Text.strip x)) eqn:Hm; [done|].
  rewrite (body_set_meta m st _ Hm).
  destruct (body st (Text.strip x)) as [st1|e st1]; [|done].
  simpl. by apply IH.
Qed.

Lemma forget_with_meta m (r : result state) :
  forget_meta (with_meta m r) = forget_meta r.
Proof. by destruct r. Qed.
End Meta.

(** X15: the metadata lines play no part in the tree: with those lines
    taken out of the file the loop ends the same way, returning or raising
    the same exception, with the same tree and the same locals. *)
Theorem metadata_lines_leave_tree_alone (st : state) (lines : list string) :
  forget_meta (loop st (filter (fun x => meta_line x = false) lines))
  = forget_meta (loop st lines).
Proof.
  revert st. induction lines as [|x lines IH]; intros st; [done|].
  rewrite filter_cons. destruct (meta_line x) eqn:Hx.
  - rewrite decide_False by done. simpl. unfold meta_line in Hx. unfold body.
    destruct (Re.re_match Re.meta_re (Text.strip x)) as [m|]; [|done].
    simpl. rewrite <- IH.
    set (m' := <[_ := _]> (meta st)).
    rewrite (loop_set_meta m' _ st).
    + apply eq_sym, forget_with_meta.
    + apply Forall_forall. by intros y [Hy _]%list_elem_of_filter.
  - rewrite decide_True by done. simpl.
    destruct (body st (Text.strip x)) as [st1|e st1]; [|done].
    simpl. apply IH.
Qed.

(** X16: the tree plays no part in the metadata: when the loop returns, its
    metadata is the one the metadata lines alone give, and a file of
    metadata lines alone always returns and leaves the tree and the locals
    as they were. *)
Theorem metadata_from_metadata_lines (st : state) (lines : list string)
    (st' : state) :
  loop st lines = Next st' ->
  loop st (filter (fun x => meta_line x = true) lines)
  = Next (set_meta (meta st') st).
Proof.
  assert (forall (lines : list string) st st0 st',
            loop st lines = Next st' ->
            loop (set_meta (meta st) st0)
              (filter (fun x => meta_line x = true) lines)
            = Next (set_meta (meta st') st0)) as Hgen.
  { clear. induction lines as [|x lines IH]; intros st st0 st'; simpl.
    - by intros [= <-].
    - rewrite filter_cons. destruct (meta_line x) eqn:Hx.
      + rewrite decide_True by done. simpl. unfold meta_line in Hx.
        unfold body.
        destruct (Re.re_match Re.meta_re (Text.strip x)) as [m|]; [|done].
        simpl. intros Hrest.
        apply (IH _ st0) in Hrest. exact Hrest.
      + rewrite decide_False by done.
        unfold meta_line in Hx.
        destruct (Re.re_match Re.meta_re (Text.strip x)) eqn:Hm; [done|].
        pose proof (body_keeps_meta st _ Hm) as Hkeep.
        destruct (body st (Text.strip x)) as [st1|e st1]; [|done].
        simpl in *. intros Hrest. rewrite <- Hkeep. by apply IH. }
  intros Hloop. rewrite <- (set_meta_id st) at 1. by apply Hgen.
Qed.

(** The metadata line of a file that goes on with a monthly block. *)
Lemma metadata_from_metadata_lines_witness :
  loop new
    (filter (fun x => meta_line x = true)
       ["Station Name: EXAMPLE"; "Temperature-Related Normals"; "Monthly";
        Sample.mly_row])
  = Next (set_meta
            (meta (State {["Station Name" := "EXAMPLE"]}
                     {[Sample.T := {["Monthly" :=
                         {["mly-tmax-normal" := ints Sample.mly_values]}]}]}
                     (Some Sample.T) (Some "Monthly")
                     (Some "mly-tmax-normal")))
            new).
Proof.
  apply (metadata_from_metadata_lines new
           ["Station Name: EXAMPLE"; "Temperature-Related Normals"; "Monthly";
            Sample.mly_row]).
  vm_compute. reflexivity.
Defined.

(** ** The loop is one pass *)

(** X17: reading a file is one forward pass: the loop over two lists of
    lines put together is the loop over the first and then, from the state
    it returns, the loop over the second; when the first raises, that is the
    result, whatever the second list holds. *)
Theorem loop_is_one_pass (st : state) (pre post : list string) :
  loop st (pre ++ post)
  = match loop st pre with
    | Next st1 => loop st1 post
    | Raise e st1 => Raise e st1
    end.
Proof. rewrite loop_app. by destruct (loop st pre). Qed.

(** ** A type line does not reset the frequency *)

(** X18: a line that opens a new type leaves the frequency of the type
    before active, although the new type has no dict for it: when the next
    line is a monthly row of 13 columns whose values convert, the loop
    raises KeyError for the key Monthly, with the new type in the tree,
    empty. *)
Theorem new_type_needs_frequency_line (st : state) (x y : string)
    (m : list string) (vals : list Z) :
  Re.re_match Re.meta_re (Text.strip x) = None ->
  Re.re_match Re.type_re (Text.strip x) = Some m ->
  normals st !! Text.strip (Re.group m 1) = None ->
  frequency st = Some "Monthly" ->
  data_row (Text.strip y) ->
  length (Text.re_split_ws (Text.strip y)) = 13%nat ->
  transform_data (Text.strip (Re.group m 1))
    (trim_from_end (tl (Text.re_split_ws (Text.strip y))) "-8888")
  = inr vals ->
  loop st [x; y]
  = Raise (KeyError (Some "Monthly"))
      (State (meta st) (<[Text.strip (Re.group m 1) := ∅]> (normals st))
         (Some (Text.strip (Re.group m 1))) (Some "Monthly")
         (Some (hd "" (Text.re_split_ws (Text.strip y))))).
Proof.
  intros Hm Ht Hnew Hfr Hrow Hlen Hvals. simpl.
  unfold body at 2. rewrite Hm, Ht. simpl. rewrite Hnew. simpl.
  rewrite (stale_monthly_row_effect _
             (Text.strip (Re.group m 1)) (Text.strip y) ∅ vals);
    try done; simpl.
  - unfold set_variable. simpl. by rewrite Hfr.
  - by rewrite lookup_insert_eq.
Qed.

(** A second type opened under Monthly, and a monthly row right after. *)
Lemma new_type_needs_frequency_line_witness :
  loop Sample.monthly_open ["Precipitation-Related Normals"; Sample.mly_row]
  = Raise (KeyError (Some "Monthly"))
      (State (meta Sample.monthly_open)
         (<[Text.strip (Re.group ["Precipitation-Related"] 1) := ∅]>
            (normals Sample.monthly_open))
         (Some (Text.strip (Re.group ["Precipitation-Related"] 1)))
         (Some "Monthly")
         (Some (hd "" (Text.re_split_ws (Text.strip Sample.mly_row))))).
Proof.
  apply (new_type_needs_frequency_line Sample.monthly_open
           "Precipitation-Related Normals" Sample.mly_row
           ["Precipitation-Related"] Sample.mly_values);
    try (vm_compute; reflexivity).
  repeat split; vm_compute; reflexivity.
Defined.

(** ** Examples

    The text primitives, the four patterns and a whole file, evaluated. *)

Example split_demo :
  map Text.re_split_ws ["a  b c"; ""; " a"; "a "]
  = [["a"; "b"; "c"]; [""]; [""; "a"]; ["a"; ""]].
Proof. reflexivity. Qed.

Example strip_demo : Text.strip "  a b  " = "a b".
Proof. reflexivity. Qed.

Example meta_demo :
  map (Re.re_match Re.meta_re)
    ["Station Name: EXAMPLE"; "a:b:c"; "a:"; ":a"; "1a:b"; "Daily: x"]
  = [Some ["Station Name"; " EXAMPLE"]; None; None; None; None;
     Some ["Daily"; " x"]].
Proof. vm_compute. reflexivity. Qed.

(** A line such as Monthly Normals opens a type, not a frequency: the
    pattern of the types is tried first. *)
Example type_demo :
  map (Re.re_match Re.type_re)
    ["Temperature-Related Normals"; "Normals"; "a  b   Normals";
     "x Normalsy"; "Monthly Normals"]
  = [Some ["Temperature-Related"]; None; Some ["a  b  "]; None;
     Some ["Monthly"]].
Proof. vm_compute. reflexivity. Qed.

Example frequency_demo :
  map (Re.re_match Re.frequency_re)
    ["Daily"; "Monthly stuff"; "Fly"; "Daily-foo bar"; "Xlylyly"; "Dailyx";
     "daily"; "Truly lyly"]
  = [Some ["Daily"]; Some ["Monthly"]; None; Some ["Daily"];
     Some ["Xlylyly"]; None; None; Some ["Truly"]].
Proof. vm_compute. reflexivity. Qed.

Example flag_demo :
  map strip_flag ["630S"; "631R"; "633"; "S"; "AB"; "6a"; ""]
  = ["630"; "631"; "633"; ""; "A"; "6a"; ""].
Proof. vm_compute. reflexivity. Qed.

Example int_demo :
  map int ["633"; "-8888"; "+7"; "007"; ""; "-"; "6a"; "1 2"]
  = [Some 633; Some (-8888); Some 7; Some 7; None; None; None; None]%Z.
Proof. vm_compute. reflexivity. Qed.

Example month_index_demo :
  map month_index ["JAN"; "FEB"; "DEC"; "Jan"; "XXX"] = [0; 1; 11; -1; -1]%Z.
Proof. vm_compute. reflexivity. Qed.

(** One metadata line, the two headers and a monthly row. *)
Example monthly_file :
  StationNormals
    ["Station Name:EXAMPLE"; "Temperature-Related Normals"; "Monthly";
     Sample.mly_row]
  = Next (State {["Station Name" := "EXAMPLE"]}
       {[Sample.T := {["Monthly" :=
           {["mly-tmax-normal" := ints Sample.mly_values]}]}]}
       (Some Sample.T) (Some "Monthly") (Some "mly-tmax-normal")).
Proof. vm_compute. reflexivity. Qed.

(** A daily block: the row that opens the variable, then FEB. *)
Example daily_file :
  StationNormals
    ["Temperature-Related Normals"; "Daily"; Sample.jan_row; Sample.feb_row]
  = Next (State ∅
       {[Sample.T := {["Daily" :=
           {[Sample.tmax :=
               <[1%nat := PList (ints Sample.feb_values)]>
                 (<[0%nat := PList (ints Sample.jan_values)]>
                    Sample.empty_slots)]}]}]}
       (Some Sample.T) (Some "Daily") (Some Sample.tmax)).
Proof. vm_compute. reflexivity. Qed.

(** A type that changes under a frequency kept from the type before: the
    dict of that frequency is missing under the new type. *)
Example stale_frequency :
  StationNormals
    ["Temperature-Related Normals"; "Monthly"; "Precipitation-Related Normals";
     Sample.mly_row]
  = Raise (KeyError (Some "Monthly"))
      (State ∅ {[Sample.T := {["Monthly" := ∅]}; "Precipitation-Related" := ∅]}
         (Some "Precipitation-Related") (Some "Monthly")
         (Some "mly-tmax-normal")).
Proof. vm_compute. reflexivity. Qed.
